(** * Gestor de Gastos: a shallow embedding of [src/index.tsx]

    The program is a single-page expense tracker.  Its state is four values
    (transaction list, category list, user list, budget), each mirrored into
    the browser's [localStorage] by the [useLocalStorage] hook.  This file
    embeds the data model and the operations of [index.tsx] and proves the
    properties stated about them.

    Conventions of the embedding:
    - a JavaScript [number] is an IEEE 754 binary64 value: Rocq's primitive
      [float], whose operations are the ones the JavaScript engine performs;
    - a JavaScript string is a [string]; string literals are UTF-8, and the
      only characters the program inspects (comma, double quote) are ASCII,
      so searching and replacing them agrees with the UTF-16 original;
    - [undefined] in an optional field is [None];
    - functions of the platform that the program calls but does not define
      ([Date], [parseFloat], number formatting, [JSON], [crypto.randomUUID])
      are parameters: a [Host] instance and operational classes for [JSON].
      Theorems hold for every host; a reference host (module [Ref]) serves to
      evaluate the program on concrete inputs;
    - state is passed explicitly: a [World] holds the React state of [App],
      the storage area and the log of effects (alerts, console errors, DOM
      operations on the download link). *)

From Stdlib Require Import ZArith Floats Ascii String DecimalString.
From stdpp Require Import base list strings gmap sorting.

Local Open Scope string_scope.

(** ** Data model *)

(** [type: 'income' | 'fixed-expense' | 'variable-expense'] *)
Inductive TransactionType := income | fixed_expense | variable_expense.

Global Instance TransactionType_eq_dec : EqDecision TransactionType.
Proof. solve_decision. Defined.

(** The string literal a [TransactionType] stands for. *)
Definition typeString (ty : TransactionType) : string :=
  match ty with
  | income => "income"
  | fixed_expense => "fixed-expense"
  | variable_expense => "variable-expense"
  end.

(** [interface Transaction] *)
Record Transaction := {
  id : string;
  description : string;
  amount : float;
  type : TransactionType;
  category : option string;
  date : string;
  user : string;
}.

(** [Omit<Transaction, 'id'>], the argument of [addTransaction]. *)
Module Draft.
Record t := {
  description : string;
  amount : float;
  type : TransactionType;
  category : option string;
  date : string;
  user : string;
}.
End Draft.

(** [{ ...transaction, id: uuid }] *)
Definition withId (transaction : Draft.t) (uuid : string) : Transaction :=
  {| id := uuid;
     description := Draft.description transaction;
     amount := Draft.amount transaction;
     type := Draft.type transaction;
     category := Draft.category transaction;
     date := Draft.date transaction;
     user := Draft.user transaction |}.

Definition DEFAULT_CATEGORIES : list string :=
  ["Comida"; "Transporte"; "Ocio"; "Hogar"; "Salud"; "Educación"].
Definition DEFAULT_USERS : list string := ["Usuario 1"; "Usuario 2"].
Definition DEFAULT_BUDGET : float := 2000%float.

(** ** The platform *)

(** Functions of the JavaScript platform used by the program.
    - [Date_getTime s] is [new Date(s).getTime()]: the time value in
      milliseconds, an integer of magnitude at most 8.64e15 (hence exactly
      representable as a number), or [None] for [NaN] (invalid date);
    - [parseFloat] and [Number_toString] (the conversion [String(x)] that
      [Array.prototype.join] applies to a number) are the standard ones. *)
Class Host := {
  Date_getTime : string → option Z;
  parseFloat : string → float;
  Number_toString : float → string;
}.

(** [JSON.stringify] at type [T]; [None] when it throws. *)
Class JSONStringify (T : Type) := JSON_stringify : T → option string.
(** [JSON.parse] read at type [T] (the unchecked cast of the generic hook);
    [None] when it throws a [SyntaxError]. *)
Class JSONParse (T : Type) := JSON_parse : string → option T.
Global Hint Mode JSONStringify ! : typeclass_instances.
Global Hint Mode JSONParse ! : typeclass_instances.

(** ** [Array.prototype.sort]

    ECMAScript requires the sort to be stable and calls the comparator
    through [SortCompare], which turns a [NaN] result into [+0].  For a
    consistent comparator the result does not depend on the algorithm
    (lemma [stable_sort_unique]); insertion sort is used here.  Only the sign
    of the comparator's result is used, so the result is kept as an integer,
    [None] standing for [NaN]. *)
Section Array_sort.
Context {A : Type} (comparefn : A → A → option Z).

Definition SortCompare (x y : A) : Z := default 0%Z (comparefn x y).

(** [x] stood before every element of [l]: it moves right only past
    elements that must come first ([SortCompare x y > 0]). *)
Fixpoint sort_insert (x : A) (l : list A) : list A :=
  match l with
  | [] => [x]
  | y :: l' =>
      if (0 <? SortCompare x y)%Z then y :: sort_insert x l'
      else x :: y :: l'
  end.

Fixpoint Array_sort (l : list A) : list A :=
  match l with
  | [] => []
  | x :: l' => sort_insert x (Array_sort l')
  end.

End Array_sort.

(** Comparators of the shape [(a, b) => key(b) - key(a)]: descending by
    [key], where [key] may be [NaN] ([None]). *)
Section by_key.
Context {A : Type} (key : A → option Z).

Definition by_key_desc (a b : A) : option Z :=
  kb ← key b; ka ← key a; Some (kb - ka)%Z.

(** [a] may stand before [b]: both keys are numbers and [key a >= key b]. *)
Definition key_ge (a b : A) : Prop :=
  ∃ ka kb, key a = Some ka ∧ key b = Some kb ∧ (kb ≤ ka)%Z.

Definition has_key (d : Z) (a : A) : Prop := key a = Some d.

#[global] Instance has_key_dec d a : Decision (has_key d a).
Proof. unfold has_key. apply _. Defined.

End by_key.

(** ** Strings *)

Definition dquote : ascii := "034"%char.
Definition comma : ascii := ","%char.
Definition newline : string := String "010"%char "".

(** [s.includes(c)] for a one-character pattern. *)
Fixpoint includes (c : ascii) (s : string) : bool :=
  match s with
  | EmptyString => false
  | String a s' => if decide (a = c) then true else includes c s'
  end.

(** [s.replace(/c/g, by)] for a one-character pattern. *)
Fixpoint replaceAll (c : ascii) (by_ : string) (s : string) : string :=
  match s with
  | EmptyString => EmptyString
  | String a s' =>
      if decide (a = c) then by_ ++ replaceAll c by_ s'
      else String a (replaceAll c by_ s')
  end.

(** ** The browser: storage area and effects *)

(** A storage area: its items and the room the user agent grants it, in
    characters of keys and values ([setItem] throws a [QuotaExceededError]
    when the new item does not fit). *)
Record Storage := {
  items : gmap string string;
  quota : N;
}.

Definition usage (m : gmap string string) : N :=
  map_fold
    (λ k v n, N.of_nat (String.length k) + N.of_nat (String.length v) + n)%N
    0%N m.

Definition getItem (key : string) (s : Storage) : option string :=
  items s !! key.

(** [None] when [setItem] throws. *)
Definition setItem (key value : string) (s : Storage) : option Storage :=
  let m := <[key := value]> (items s) in
  if decide (usage m ≤ quota s)%N
  then Some {| items := m; quota := quota s |}
  else None.

(** [new Blob([content], { type })] *)
Record Blob := {
  blob_content : string;
  blob_type : string;
}.

(** The anchor element built by the exporter; [href] is the object URL of
    the blob. *)
Record Link := {
  href : Blob;
  download : string;
  visibility : string;
}.

Inductive Error := SyntaxError | TypeError | QuotaExceededError.

Inductive Event :=
  | console_error (error : Error)
  | alert (message : string)
  | appendChild (link : Link)
  | click (link : Link)
  | removeChild (link : Link).

Record Env := {
  localStorage : Storage;
  events : list Event;
}.

Definition emit (e : Event) (env : Env) : Env :=
  {| localStorage := localStorage env; events := events env ++ [e] |}.

Definition with_localStorage (s : Storage) (env : Env) : Env :=
  {| localStorage := s; events := events env |}.

(** ** [useLocalStorage] *)

(** [value instanceof Function ? value(storedValue) : value]: the argument
    of a setter is a new value ([inl]) or a function of the stored one
    ([inr]). *)
Definition apply_to {T : Type} (value : T + (T → T)) (storedValue : T) : T :=
  match value with inl v => v | inr f => f storedValue end.

Section useLocalStorage.
Context {T : Type} `{!JSONStringify T, !JSONParse T}.

(** The initializer of [useState]: the value the hook starts with. *)
Definition useLocalStorage_init (key : string) (initialValue : T)
    (env : Env) : T * Env :=
  match getItem key (localStorage env) with
  | Some item =>
      if decide (item = "") then (initialValue, env)
      else match JSON_parse item with
           | Some v => (v, env)
           | None => (initialValue, emit (console_error SyntaxError) env)
           end
  | None => (initialValue, env)
  end.

(** [setValue(value)]: the new stored value and the browser after the
    call.  The React state is set before the write is tried, so it changes
    even when the write fails. *)
Definition setValue (key : string) (value : T + (T → T)) (storedValue : T)
    (env : Env) : T * Env :=
  let valueToStore := apply_to value storedValue in
  (valueToStore,
   match JSON_stringify valueToStore with
   | Some text =>
       match setItem key text (localStorage env) with
       | Some s => with_localStorage s env
       | None => emit (console_error QuotaExceededError) env
       end
   | None => emit (console_error TypeError) env
   end).

End useLocalStorage.

(** ** [App]: state *)

Record AppState := {
  transactions : list Transaction;
  categories : list string;
  users : list string;
  budget : float;
}.

Record World := {
  state : AppState;
  env : Env;
}.

Definition with_transactions (v : list Transaction) (st : AppState) :=
  {| transactions := v; categories := categories st; users := users st;
     budget := budget st |}.
Definition with_categories (v : list string) (st : AppState) :=
  {| transactions := transactions st; categories := v; users := users st;
     budget := budget st |}.
Definition with_users (v : list string) (st : AppState) :=
  {| transactions := transactions st; categories := categories st;
     users := v; budget := budget st |}.
Definition with_budget (v : float) (st : AppState) :=
  {| transactions := transactions st; categories := categories st;
     users := users st; budget := v |}.

(** The first render of [App]: the four hooks read their values. *)
Definition App_init `{!JSONParse (list Transaction)}
    `{!JSONParse (list string)} `{!JSONParse float} (env : Env) : World :=
  let '(transactions, env) := useLocalStorage_init "transactions" [] env in
  let '(categories, env) :=
    useLocalStorage_init "categories" DEFAULT_CATEGORIES env in
  let '(users, env) := useLocalStorage_init "users" DEFAULT_USERS env in
  let '(budget, env) := useLocalStorage_init "budget" DEFAULT_BUDGET env in
  {| state := {| transactions := transactions; categories := categories;
                 users := users; budget := budget |};
     env := env |}.

(** The three running totals of the aggregation. *)
Record Totals := {
  totalIncome : float;
  totalFixedExpenses : float;
  totalVariableExpenses : float;
}.

(** The body of the [reduce] callback: three tests in sequence, each adding
    to its own total. *)
Definition aggregate_step (acc : Totals) (t : Transaction) : Totals :=
  let acc :=
    if decide (type t = income)
    then {| totalIncome := totalIncome acc + amount t;
            totalFixedExpenses := totalFixedExpenses acc;
            totalVariableExpenses := totalVariableExpenses acc |}
    else acc in
  let acc :=
    if decide (type t = fixed_expense)
    then {| totalIncome := totalIncome acc;
            totalFixedExpenses := totalFixedExpenses acc + amount t;
            totalVariableExpenses := totalVariableExpenses acc |}
    else acc in
  if decide (type t = variable_expense)
  then {| totalIncome := totalIncome acc;
          totalFixedExpenses := totalFixedExpenses acc;
          totalVariableExpenses := totalVariableExpenses acc + amount t |}
  else acc.

Definition aggregate (transactions : list Transaction) : Totals :=
  fold_left aggregate_step transactions
    {| totalIncome := 0; totalFixedExpenses := 0;
       totalVariableExpenses := 0 |}.

Definition totalExpenses (transactions : list Transaction) : float :=
  totalFixedExpenses (aggregate transactions)
  + totalVariableExpenses (aggregate transactions).

Definition remainingBudget (budget : float)
    (transactions : list Transaction) : float :=
  budget + totalIncome (aggregate transactions) - totalExpenses transactions.

(** ** [App]: operations *)
Section App.
Context `{!Host} `{!JSONStringify (list Transaction)}
  `{!JSONStringify (list string)} `{!JSONStringify float}.

(** The four bindings [useLocalStorage(key, ...)] of [App]: their setters. *)
Definition setTransactions
    (value : list Transaction + (list Transaction → list Transaction))
    (w : World) : World :=
  let '(v, e) :=
    setValue "transactions" value (transactions (state w)) (env w) in
  {| state := with_transactions v (state w); env := e |}.

Definition setCategories
    (value : list string + (list string → list string)) (w : World) : World :=
  let '(v, e) := setValue "categories" value (categories (state w)) (env w) in
  {| state := with_categories v (state w); env := e |}.

Definition setUsers
    (value : list string + (list string → list string)) (w : World) : World :=
  let '(v, e) := setValue "users" value (users (state w)) (env w) in
  {| state := with_users v (state w); env := e |}.

Definition setBudget (value : float + (float → float)) (w : World) : World :=
  let '(v, e) := setValue "budget" value (budget (state w)) (env w) in
  {| state := with_budget v (state w); env := e |}.

(** [new Date(t.date).getTime()] *)
Definition timeOf (t : Transaction) : option Z := Date_getTime (date t).

(** [(a, b) => new Date(b.date).getTime() - new Date(a.date).getTime()] *)
Definition compareFn (a b : Transaction) : option Z :=
  tb ← timeOf b; ta ← timeOf a; Some (tb - ta)%Z.

(** [uuid] is the value [crypto.randomUUID()] returns in this call. *)
Definition addTransaction (transaction : Draft.t) (uuid : string)
    (w : World) : World :=
  let newTransaction := withId transaction uuid in
  setTransactions
    (inr (λ prev, Array_sort compareFn (newTransaction :: prev))) w.

Definition deleteTransaction (id' : string) (w : World) : World :=
  setTransactions (inr (λ prev, filter (λ t, id t ≠ id') prev)) w.

Definition addCategory (category : string) (w : World) : World :=
  if decide (category ≠ "" ∧ category ∉ categories (state w))
  then setCategories (inr (λ prev, (prev ++ [category])%list)) w
  else w.

Definition deleteCategory (categoryToDelete : string) (w : World) : World :=
  setCategories (inr (λ prev, filter (λ c, c ≠ categoryToDelete) prev)) w.

Definition addUser (user : string) (w : World) : World :=
  if decide (user ≠ "" ∧ user ∉ users (state w))
  then setUsers (inr (λ prev, (prev ++ [user])%list)) w
  else w.

Definition deleteUser (userToDelete : string) (w : World) : World :=
  setUsers (inr (λ prev, filter (λ u, u ≠ userToDelete) prev)) w.

(** *** The exporter *)

Definition headers : list string :=
  ["ID"; "Descripción"; "Monto"; "Tipo"; "Categoría"; "Fecha"; "Usuario"].

(** [formatCsvCell]; the argument is [None] for [undefined], which
    [cellData ?? ''] turns into the empty string. *)
Definition formatCsvCell (cellData : option string) : string :=
  let cell := default "" cellData in
  if includes comma cell
  then String dquote (replaceAll dquote (String dquote (String dquote ""))
                        cell ++ String dquote "")
  else cell.

(** The array a transaction is mapped to, before [join(',')]. *)
Definition csvCells (t : Transaction) : list string :=
  [ id t;
    formatCsvCell (Some (description t));
    Number_toString (amount t);
    typeString (type t);
    formatCsvCell (category t);
    date t;
    formatCsvCell (Some (user t)) ].

Definition csvRows (transactions : list Transaction) : list string :=
  String.concat "," headers
  :: map (λ t, String.concat "," (csvCells t)) transactions.

Definition csvContent (transactions : list Transaction) : string :=
  String.concat newline (csvRows transactions).

Definition exportToCsv (w : World) : World :=
  if decide (length (transactions (state w)) = 0%nat)
  then {| state := state w;
          env := emit (alert "No hay transacciones para exportar.") (env w) |}
  else
    let blob := {| blob_content := csvContent (transactions (state w));
                   blob_type := "text/csv;charset=utf-8;" |} in
    let link := {| href := blob; download := "transacciones.csv";
                   visibility := "hidden" |} in
    {| state := state w;
       env := emit (removeChild link)
                (emit (click link) (emit (appendChild link) (env w))) |}.

End App.

(** ** [TransactionForm] *)
Module TransactionForm.
Section TransactionForm.
Context `{!Host} `{!JSONStringify (list Transaction)}.

(** The form's fields; [amount] is the text of the number input. *)
Record t := {
  description : string;
  amount : string;
  type : TransactionType;
  category : string;
  user : string;
  date : string;
}.

(** [handleSubmit]: the form after the call and the world after it. *)
Definition handleSubmit (uuid : string) (f : t) (w : World) : t * World :=
  if decide (description f = "" ∨ amount f = "" ∨ date f = "" ∨ user f = "")
  then (f, w)
  else
    ({| description := ""; amount := ""; type := type f;
        category := category f; user := user f; date := date f |},
     addTransaction
       {| Draft.description := description f;
          Draft.amount := parseFloat (amount f);
          Draft.type := type f;
          Draft.category :=
            if decide (type f ≠ income) then Some (category f) else None;
          Draft.date := date f;
          Draft.user := user f |}
       uuid w).

End TransactionForm.
End TransactionForm.

(** ** [BudgetManager] *)
Module BudgetManager.
Section BudgetManager.
Context `{!Host} `{!JSONStringify float}.

(** [handleUpdate]; [newBudget] is the text of the input. *)
Definition handleUpdate (newBudget : string) (w : World) : World :=
  let value := parseFloat newBudget in
  if negb (is_nan value) && (0 <=? value)%float
  then setBudget (inl value) w
  else w.

End BudgetManager.
End BudgetManager.

(** ** Sequences of calls to the transaction editor *)
Section calls.
Context `{!Host} `{!JSONStringify (list Transaction)}.

Inductive Call :=
  | call_addTransaction (transaction : Draft.t) (uuid : string)
  | call_deleteTransaction (id' : string).

Definition perform (w : World) (c : Call) : World :=
  match c with
  | call_addTransaction transaction uuid => addTransaction transaction uuid w
  | call_deleteTransaction id' => deleteTransaction id' w
  end.

(** The calls are made one after the other, each on the state the previous
    one left. *)
Definition run (calls : list Call) (w : World) : World :=
  fold_left perform calls w.

(** The date of every added transaction is a date of the host. *)
Definition valid_call (c : Call) : Prop :=
  match c with
  | call_addTransaction transaction _ =>
      is_Some (Date_getTime (Draft.date transaction))
  | call_deleteTransaction _ => True
  end.

(** The record of arrivals: the transactions that were there at the start
    or were added, less those deleted since; the most recent first, ... *)
Definition newest_first (start : list Transaction) (calls : list Call)
    : list Transaction :=
  fold_left
    (λ log c,
       match c with
       | call_addTransaction transaction uuid => withId transaction uuid :: log
       | call_deleteTransaction id' => filter (λ t, id t ≠ id') log
       end)
    calls start.

(** ... or the oldest first. *)
Definition oldest_first (start : list Transaction) (calls : list Call)
    : list Transaction :=
  fold_left
    (λ log c,
       match c with
       | call_addTransaction transaction uuid =>
           (log ++ [withId transaction uuid])%list
       | call_deleteTransaction id' => filter (λ t, id t ≠ id') log
       end)
    calls start.

(** Descending by date, and the transactions of one date. *)
Definition date_ge : relation Transaction := key_ge timeOf.
Definition on_date (d : Z) : Transaction → Prop := has_key timeOf d.

(** What the collection and the record of arrivals share, call after call:
    the collection is ordered by date, holds the same transactions, and
    those of any one date stand in it as in the record. *)
Definition sorted_view (txs log : list Transaction) : Prop :=
  StronglySorted date_ge txs
  ∧ Forall (λ t, is_Some (timeOf t)) txs
  ∧ (∀ d, filter (on_date d) txs = filter (on_date d) log)
  ∧ txs ≡ₚ log.

End calls.

(** ** Vocabulary of the statements *)

(** The sum of a list of numbers, added from left to right from [0]. *)
Definition fsum (l : list float) : float := fold_left PrimFloat.add l 0%float.

Definition of_type (ty : TransactionType) (t : Transaction) : Prop :=
  type t = ty.

#[global] Instance of_type_dec ty t : Decision (of_type ty t).
Proof. unfold of_type. apply _. Defined.

(** The amounts of the transactions of one kind, in collection order. *)
Definition amounts_of (ty : TransactionType)
    (transactions : list Transaction) : list float :=
  amount <$> filter (of_type ty) transactions.

(** A string with every double quote doubled. *)
Fixpoint doubled (s : string) : string :=
  match s with
  | EmptyString => EmptyString
  | String c s' =>
      if decide (c = dquote) then String dquote (String dquote (doubled s'))
      else String c (doubled s')
  end.

(** A field wrapped in double quotes, its own double quotes doubled. *)
Definition wrapped (raw : string) : string :=
  String dquote (doubled raw ++ String dquote "").

(** The raw values of the seven columns of a transaction. *)
Definition rawFields `{!Host} (t : Transaction) : list string :=
  [ id t; description t; Number_toString (amount t); typeString (type t);
    default "" (category t); date t; user t ].

(** The columns whose cell goes through [formatCsvCell]: description (1),
    category (4) and user (6). *)
Definition formatted (i : nat) : Prop := i = 1%nat ∨ i = 4%nat ∨ i = 6%nat.

(** ** A reference host

    The platform functions, written out so that the program can be evaluated
    on concrete inputs: dates in the date-only ISO form a date input yields,
    [parseFloat] on the longest decimal-literal prefix, the shortest
    round-trip decimal of a number, and [JSON.stringify] of the values the
    program stores.  Conversions between decimals and numbers round to
    nearest, ties to even. *)
Module Ref.

Definition digit_of (c : ascii) : option Z :=
  let n := Z.of_nat (nat_of_ascii c) in
  if decide (48 ≤ n ≤ 57)%Z then Some (n - 48)%Z else None.

(** The longest run of decimal digits at the head of [s], and the rest. *)
Fixpoint span_digits (s : string) : list Z * string :=
  match s with
  | String c s' =>
      match digit_of c with
      | Some d => let '(ds, r) := span_digits s' in (d :: ds, r)
      | None => ([], s)
      end
  | EmptyString => ([], EmptyString)
  end.

Definition Z_of_digits (ds : list Z) : Z :=
  fold_left (λ acc d, 10 * acc + d)%Z ds 0%Z.

(** *** Dates *)

Definition isLeapYear (y : Z) : bool :=
  ((y mod 4 =? 0) && negb (y mod 100 =? 0) || (y mod 400 =? 0))%Z.

Definition daysInMonth (y m : Z) : Z :=
  if (m =? 2)%Z then (if isLeapYear y then 29 else 28)%Z
  else if ((m =? 4) || (m =? 6) || (m =? 9) || (m =? 11))%Z then 30%Z
  else 31%Z.

(** Days from 1970-01-01 to the civil date [y-m-d]. *)
Definition daysFromCivil (y m d : Z) : Z :=
  let y' := (if (m <=? 2)%Z then y - 1 else y)%Z in
  let era := (y' / 400)%Z in
  let yoe := (y' - era * 400)%Z in
  let mp := (if (m <=? 2)%Z then m + 9 else m - 3)%Z in
  let doy := ((153 * mp + 2) / 5 + d - 1)%Z in
  let doe := (yoe * 365 + yoe / 4 - yoe / 100 + doy)%Z in
  (era * 146097 + doe - 719468)%Z.

Definition msPerDay : Z := 86400000.

(** [new Date(s).getTime()] for [s] of the form [YYYY-MM-DD] (midnight
    UTC); other strings are not dates of this host. *)
Definition Date_getTime (s : string) : option Z :=
  match span_digits s with
  | ([y1; y2; y3; y4], String "-" s1) =>
      match span_digits s1 with
      | ([m1; m2], String "-" s2) =>
          match span_digits s2 with
          | ([d1; d2], EmptyString) =>
              let y := Z_of_digits [y1; y2; y3; y4] in
              let m := Z_of_digits [m1; m2] in
              let d := Z_of_digits [d1; d2] in
              if decide (1 ≤ m ≤ 12 ∧ 1 ≤ d ≤ daysInMonth y m)%Z
              then Some (daysFromCivil y m d * msPerDay)%Z
              else None
          | _ => None
          end
      | _ => None
      end
  | _ => None
  end.

(** *** Decimal to number *)

(** The number nearest to [num / den] ([num >= 0], [den > 0]), negated when
    [neg].  The quotient is taken with more than 55 bits and a sticky bit,
    which rounds as the exact ratio does. *)
Definition round_ratio (neg : bool) (num den : Z) : float :=
  if (num =? 0)%Z then (if neg then (-0)%float else 0%float)
  else
    let k := Z.max 0 (56 + Z.log2_up den - Z.log2 num) in
    let scaled := (num * 2 ^ k)%Z in
    let q := (scaled / den)%Z in
    let sticky := (if (scaled mod den =? 0)%Z then 0 else 1)%Z in
    let m := (2 * q + sticky)%Z in
    SF2Prim (binary_normalize prec emax (if neg then - m else m)%Z
               (- k - 1)%Z neg).

(** The number nearest to [m * 10 ^ e]. *)
Definition dec_to_float (neg : bool) (m e : Z) : float :=
  if (0 <=? e)%Z then round_ratio neg (m * 10 ^ e) 1
  else round_ratio neg m (10 ^ (- e)).

(** White space and line terminators, among the ASCII characters. *)
Definition isWhiteSpace (c : ascii) : bool :=
  let n := nat_of_ascii c in
  bool_decide (n = 32 ∨ 9 ≤ n ≤ 13)%nat.

Fixpoint trimStart (s : string) : string :=
  match s with
  | String c s' => if isWhiteSpace c then trimStart s' else s
  | EmptyString => EmptyString
  end.

Definition hasPrefix (p s : string) : bool := String.prefix p s.

(** The exponent part [e], [e+] or [e-] followed by digits, if [s] starts
    with one; 0 otherwise. *)
Definition exponentPart (s : string) : Z :=
  match s with
  | String c s' =>
      if bool_decide (c = "e" ∨ c = "E")%char then
        match s' with
        | String "-" s'' =>
            match span_digits s'' with
            | ([], _) => 0 | (ds, _) => - Z_of_digits ds end
        | String "+" s'' =>
            match span_digits s'' with
            | ([], _) => 0 | (ds, _) => Z_of_digits ds end
        | _ =>
            match span_digits s' with
            | ([], _) => 0 | (ds, _) => Z_of_digits ds end
        end%Z
      else 0%Z
  | EmptyString => 0%Z
  end.

(** An unsigned [StrDecimalLiteral] at the head of [s]. *)
Definition unsignedLiteral (neg : bool) (s : string) : float :=
  if hasPrefix "Infinity" s
  then (if neg then neg_infinity else infinity)
  else
    let '(ip, r) := span_digits s in
    let '(fp, r') :=
      match r with
      | String "." r1 => span_digits r1
      | _ => ([], r)
      end in
    match (ip ++ fp)%list with
    | [] => nan
    | ds =>
        dec_to_float neg (Z_of_digits ds)
          (exponentPart r' - Z.of_nat (length fp))
    end.

Definition parseFloat (s : string) : float :=
  match trimStart s with
  | String "-" s' => unsignedLiteral true s'
  | String "+" s' => unsignedLiteral false s'
  | s' => unsignedLiteral false s'
  end.

(** *** Number to decimal *)

Definition string_of_Z (z : Z) : string :=
  NilZero.string_of_uint (N.to_uint (Z.to_N z)).

(** [10 ^ n <= num / den] *)
Definition pow10_le (n num den : Z) : bool :=
  if (0 <=? n)%Z then (10 ^ n * den <=? num)%Z
  else (den <=? num * 10 ^ (- n))%Z.

(** The [n] with [10 ^ (n - 1) <= num / den < 10 ^ n], searched downwards. *)
Fixpoint decimalExponent (fuel : nat) (n num den : Z) : Z :=
  match fuel with
  | O => n
  | S fuel' =>
      if pow10_le n num den then (n + 1)%Z
      else decimalExponent fuel' (n - 1)%Z num den
  end.

(** The integer [s] of [k] digits (or [10 ^ k]) nearest to
    [num / den * 10 ^ (k - n)] among those whose decimal
    [s * 10 ^ (n - k)] reads back as [x]; [None] if there is none. *)
Definition digitsOfLength (x : float) (num den n k : Z) : option Z :=
  let '(N, D) :=
    if (0 <=? k - n)%Z then (num * 10 ^ (k - n), den)%Z
    else (num, den * 10 ^ (n - k))%Z in
  let lo := (N / D)%Z in
  let hi := (lo + 1)%Z in
  let r := (N mod D)%Z in
  let ok c := PrimFloat.eqb (dec_to_float false c (n - k)) x in
  match ok lo, ok hi with
  | true, true =>
      if (r =? 0)%Z then Some lo
      else match (2 * r ?= D)%Z with
           | Lt => Some lo
           | Gt => Some hi
           | Eq => if Z.even lo then Some lo else Some hi
           end
  | true, false => Some lo
  | false, true => Some hi
  | false, false => None
  end.

(** The shortest digit string and its length, tried from length [k]
    upwards (17 digits always suffice). *)
Fixpoint shortestDigits (fuel : nat) (x : float) (num den n k : Z)
    : option (Z * Z) :=
  match fuel with
  | O => None
  | S fuel' =>
      match digitsOfLength x num den n k with
      | Some s => Some (s, k)
      | None => shortestDigits fuel' x num den n (k + 1)%Z
      end
  end.

Fixpoint dropTrailingZeros (fuel : nat) (s : Z) : Z :=
  match fuel with
  | O => s
  | S fuel' =>
      if ((s mod 10 =? 0) && negb (s =? 0))%Z
      then dropTrailingZeros fuel' (s / 10)%Z
      else s
  end.

Definition zeros (n : Z) : string :=
  string_of_list_ascii (replicate (Z.to_nat n) "0"%char).

Definition sub (from len : Z) (s : string) : string :=
  String.substring (Z.to_nat from) (Z.to_nat len) s.

(** The text of the decimal [0.digits * 10 ^ n], as [Number::toString]
    lays it out. *)
Definition formatDecimal (digits : string) (n : Z) : string :=
  let k := Z.of_nat (String.length digits) in
  if ((k <=? n) && (n <=? 21))%Z then digits ++ zeros (n - k)
  else if ((0 <? n) && (n <=? 21))%Z
  then sub 0 n digits ++ "." ++ sub n (k - n) digits
  else if ((-6 <? n) && (n <=? 0))%Z then "0." ++ zeros (- n) ++ digits
  else
    let e := (n - 1)%Z in
    let es := (if (0 <=? e)%Z then "+" else "-") ++ string_of_Z (Z.abs e) in
    if (k =? 1)%Z then digits ++ "e" ++ es
    else sub 0 1 digits ++ "." ++ sub 1 (k - 1) digits ++ "e" ++ es.

(** [Number::toString] of a positive number. *)
Definition positive_toString (x : float) : string :=
  match Prim2SF x with
  | S754_finite _ m e =>
      let '(num, den) :=
        if (0 <=? e)%Z then (Zpos m * 2 ^ e, 1)%Z
        else (Zpos m, 2 ^ (- e))%Z in
      let n := decimalExponent 700 309 num den in
      match shortestDigits 17 x num den n 1 with
      | Some (s, k) =>
          let len := Z.of_nat (String.length (string_of_Z s)) in
          formatDecimal (string_of_Z (dropTrailingZeros 400 s))
            (n + (len - k))
      | None => ""
      end
  | S754_infinity _ => "Infinity"
  | S754_zero _ => "0"
  | S754_nan => "NaN"
  end.

Definition Number_toString (x : float) : string :=
  if is_nan x then "NaN"
  else if (x =? 0)%float then "0"
  else if (x <? 0)%float then "-" ++ positive_toString (- x)
  else positive_toString x.

#[export] Instance host : Host :=
  Build_Host Date_getTime parseFloat Number_toString.

(** *** JSON *)

Definition hexDigit (n : nat) : ascii :=
  ascii_of_nat (if decide (n < 10)%nat then 48 + n else 87 + n).

(** [QuoteJSONString]: the escape of one character. *)
Definition escapeChar (c : ascii) : string :=
  let n := nat_of_ascii c in
  if decide (n = 8)%nat then "\b"
  else if decide (n = 9)%nat then "\t"
  else if decide (n = 10)%nat then "\n"
  else if decide (n = 12)%nat then "\f"
  else if decide (n = 13)%nat then "\r"
  else if decide (c = dquote) then String "\" (String dquote "")
  else if decide (c = "\"%char) then "\\"
  else if decide (n < 32)%nat
  then "\u00" ++ String (hexDigit (n / 16)) (String (hexDigit (n mod 16)) "")
  else String c "".

Fixpoint escapeJSON (s : string) : string :=
  match s with
  | EmptyString => EmptyString
  | String c s' => escapeChar c ++ escapeJSON s'
  end.

Definition quoteJSON (s : string) : string :=
  String dquote (escapeJSON s ++ String dquote "").

Definition stringify_number (x : float) : string :=
  if is_nan x || is_infinity x then "null" else Number_toString x.

Definition stringify_strings (l : list string) : string :=
  "[" ++ String.concat "," (map quoteJSON l) ++ "]".

Definition member (key value : string) : string :=
  quoteJSON key ++ ":" ++ value.

(** The properties in creation order: those of the submitted object, then
    [id]; a property whose value is [undefined] is left out. *)
Definition stringify_transaction (t : Transaction) : string :=
  "{" ++ String.concat ","
    ([ member "description" (quoteJSON (description t));
       member "amount" (stringify_number (amount t));
       member "type" (quoteJSON (typeString (type t))) ]
     ++ match category t with
        | Some c => [ member "category" (quoteJSON c) ]
        | None => []
        end
     ++ [ member "date" (quoteJSON (date t));
          member "user" (quoteJSON (user t));
          member "id" (quoteJSON (id t)) ])%list
  ++ "}".

Definition stringify_transactions (l : list Transaction) : string :=
  "[" ++ String.concat "," (map stringify_transaction l) ++ "]".

(** [JSON.parse] of a JSON number: [-? int frac? exp?], nothing else. *)
Definition parse_number (s : string) : option float :=
  let '(neg, r) :=
    match s with String "-" r => (true, r) | _ => (false, s) end in
  let '(ip, r1) := span_digits r in
  let '(fp, r2, frac_ok) :=
    match r1 with
    | String "." r' =>
        let '(fp, r2) := span_digits r' in
        (fp, r2, bool_decide (fp ≠ []))
    | _ => ([], r1, true)
    end in
  let int_ok :=
    match ip with
    | [] => false
    | d :: ds => bool_decide (d ≠ 0%Z ∨ ds = [])
    end in
  let exp :=
    match r2 with
    | EmptyString => Some 0%Z
    | String c r3 =>
        if bool_decide (c = "e" ∨ c = "E")%char then
          let '(eneg, r4) :=
            match r3 with
            | String "-" r4 => (true, r4)
            | String "+" r4 => (false, r4)
            | _ => (false, r3)
            end in
          match span_digits r4 with
          | (d :: ds, EmptyString) =>
              let e := Z_of_digits (d :: ds) in
              Some (if eneg then - e else e)%Z
          | _ => None
          end
        else None
    end in
  if int_ok && frac_ok then
    e ← exp;
    Some (dec_to_float neg (Z_of_digits (ip ++ fp))
            (e - Z.of_nat (length fp)))
  else None.

#[export] Instance stringify_float : JSONStringify float :=
  λ x, Some (stringify_number x).
#[export] Instance stringify_string_list : JSONStringify (list string) :=
  λ l, Some (stringify_strings l).
#[export] Instance stringify_transaction_list
  : JSONStringify (list Transaction) :=
  λ l, Some (stringify_transactions l).
#[export] Instance parse_float : JSONParse float := parse_number.

End Ref.

(** ** Concrete inputs *)
Module Samples.

(** A browser that has never run the program, and one whose storage area
    has no room (as in some private modes). *)
Definition freshEnv : Env :=
  {| localStorage := {| items := ∅; quota := 5000000 |}; events := [] |}.
Definition fullEnv : Env :=
  {| localStorage := {| items := ∅; quota := 0 |}; events := [] |}.

(** [App] on its first run. *)
Definition world0 : World :=
  {| state := {| transactions := []; categories := DEFAULT_CATEGORIES;
                 users := DEFAULT_USERS; budget := DEFAULT_BUDGET |};
     env := freshEnv |}.

Definition draft (description : string) (amount : float)
    (type : TransactionType) (category : option string) (date : string)
    : Draft.t :=
  {| Draft.description := description; Draft.amount := amount;
     Draft.type := type; Draft.category := category; Draft.date := date;
     Draft.user := "Usuario 1" |}.

(** The scenario of the specification: an income and two expenses. *)
Definition salary := draft "Salary" 1500 income None "2024-01-05".
Definition groceries :=
  draft "Groceries, weekly" 300 variable_expense (Some "Comida") "2024-01-03".
Definition rent := draft "Rent" 800 fixed_expense (Some "Hogar") "2024-01-01".

Definition scenario : list Call :=
  [ call_addTransaction salary "id-1";
    call_addTransaction groceries "id-2";
    call_addTransaction rent "id-3" ].

(** Two transactions of the same date, added one after the other. *)
Definition first :=
  draft "first" 10 variable_expense (Some "Ocio") "2024-01-05".
Definition second :=
  draft "second" 20 variable_expense (Some "Ocio") "2024-01-05".

Definition same_day : list Call :=
  [ call_addTransaction first "id-1"; call_addTransaction second "id-2" ].

(** Decimal amounts; the literals are the numbers nearest to 0.1, 0.2 and
    0.3, as [parseFloat] reads them. *)
Definition d01 : float := 0x1.999999999999ap-4%float.
Definition d02 : float := 0x1.999999999999ap-3%float.
Definition d03 : float := 0x1.3333333333333p-2%float.

Definition priced (amount : float) (type : TransactionType) : Transaction :=
  {| id := "id"; description := "item"; amount := amount; type := type;
     category := None; date := "2024-01-05"; user := "Usuario 1" |}.

Definition decimals : list Transaction :=
  [ priced d02 fixed_expense; priced d03 variable_expense;
    priced d01 income ].

(** A large budget, a small income and two small expenses. *)
Definition large_budget : float := 1e16%float.
Definition small_amounts : list Transaction :=
  [ priced 1 income; priced 1 fixed_expense; priced 1 variable_expense ].

(** A record read from the storage area whose date is not in ISO form. *)
Definition imported : Transaction :=
  {| id := "id-9"; description := "Books"; amount := 40;
     type := variable_expense; category := Some "Ocio";
     date := "January 5, 2024"; user := "Usuario 2" |}.

(** The form filled in with a negative amount. *)
Definition refund : TransactionForm.t :=
  {| TransactionForm.description := "Refund";
     TransactionForm.amount := "-5";
     TransactionForm.type := variable_expense;
     TransactionForm.category := "Comida";
     TransactionForm.user := "Usuario 1";
     TransactionForm.date := "2024-01-05" |}.

(** Three transactions, the second with a text that is no date. *)
Definition undated : list Call :=
  [ call_addTransaction (draft "a" 1 income None "2024-01-05") "id-1";
    call_addTransaction (draft "b" 1 income None "soon") "id-2";
    call_addTransaction (draft "c" 1 income None "2024-01-01") "id-3" ].

End Samples.

(** ** The rest of the program

    The manager screens, the switch between the screens, the form as the
    user drives it, and every action the user can take on the state. *)

(** [String.prototype.trim] *)
Class Trim := String_trim : string → string.

(** *** [CategoryManager] and [UserManager] *)
Module CategoryManager.
Section CategoryManager.
Context `{!Trim} `{!JSONStringify (list string)}.

(** [handleAdd]: the text of the input after the call, and the world. *)
Definition handleAdd (newCategory : string) (w : World) : string * World :=
  ("", addCategory (String_trim newCategory) w).

End CategoryManager.
End CategoryManager.

Module UserManager.
Section UserManager.
Context `{!Trim} `{!JSONStringify (list string)}.

Definition handleAdd (newUser : string) (w : World) : string * World :=
  ("", addUser (String_trim newUser) w).

End UserManager.
End UserManager.

(** *** The screens of [App] *)

(** The two flags [isManagingCategories] and [isManagingUsers]. *)
Record Screens := {
  isManagingCategories : bool;
  isManagingUsers : bool;
}.

Definition initialScreens : Screens :=
  {| isManagingCategories := false; isManagingUsers := false |}.

Inductive View := Dashboard | CategoryManagerView | UserManagerView.

(** What [App] returns: the two tests in the order of the source. *)
Definition render (s : Screens) : View :=
  if isManagingCategories s then CategoryManagerView
  else if isManagingUsers s then UserManagerView
  else Dashboard.

(** The buttons that change the screen: the two of the header of the
    dashboard, and Volver of a manager. *)
Inductive Button := GestionarCategorias | GestionarUsuarios | Volver.

(** A button acts only on the screen that shows it. *)
Definition press (s : Screens) (b : Button) : Screens :=
  match render s, b with
  | Dashboard, GestionarCategorias =>
      {| isManagingCategories := true; isManagingUsers := isManagingUsers s |}
  | Dashboard, GestionarUsuarios =>
      {| isManagingCategories := isManagingCategories s;
         isManagingUsers := true |}
  | CategoryManagerView, Volver =>
      {| isManagingCategories := false; isManagingUsers := isManagingUsers s |}
  | UserManagerView, Volver =>
      {| isManagingCategories := isManagingCategories s;
         isManagingUsers := false |}
  | _, _ => s
  end.

(** *** The form as the user drives it *)
Module FormSession.
Section FormSession.
Context `{!Host} `{!JSONStringify (list Transaction)}.

(** The state the form is mounted with; [today] is
    [new Date().toISOString().slice(0, 10)]. *)
Definition initial (categories users : list string) (today : string)
    : TransactionForm.t :=
  {| TransactionForm.description := "";
     TransactionForm.amount := "";
     TransactionForm.type := variable_expense;
     TransactionForm.category := default "" (head categories);
     TransactionForm.user := default "" (head users);
     TransactionForm.date := today |}.

(** The events of the form: a change of one of its inputs, or a submit.  A
    select delivers one of its options: a user of the list, a category of
    the list (the category select is there when the type is not income). *)
Inductive Input :=
  | change_description (value : string)
  | change_amount (value : string)
  | change_date (value : string)
  | change_user (value : string)
  | change_type (value : TransactionType)
  | change_category (value : string)
  | submit (uuid : string).

Definition input (fw : TransactionForm.t * World) (i : Input)
    : TransactionForm.t * World :=
  let '(f, w) := fw in
  match i with
  | change_description value =>
      ({| TransactionForm.description := value;
          TransactionForm.amount := TransactionForm.amount f;
          TransactionForm.type := TransactionForm.type f;
          TransactionForm.category := TransactionForm.category f;
          TransactionForm.user := TransactionForm.user f;
          TransactionForm.date := TransactionForm.date f |}, w)
  | change_amount value =>
      ({| TransactionForm.description := TransactionForm.description f;
          TransactionForm.amount := value;
          TransactionForm.type := TransactionForm.type f;
          TransactionForm.category := TransactionForm.category f;
          TransactionForm.user := TransactionForm.user f;
          TransactionForm.date := TransactionForm.date f |}, w)
  | change_date value =>
      ({| TransactionForm.description := TransactionForm.description f;
          TransactionForm.amount := TransactionForm.amount f;
          TransactionForm.type := TransactionForm.type f;
          TransactionForm.category := TransactionForm.category f;
          TransactionForm.user := TransactionForm.user f;
          TransactionForm.date := value |}, w)
  | change_user value =>
      if decide (value ∈ users (state w))
      then ({| TransactionForm.description := TransactionForm.description f;
               TransactionForm.amount := TransactionForm.amount f;
               TransactionForm.type := TransactionForm.type f;
               TransactionForm.category := TransactionForm.category f;
               TransactionForm.user := value;
               TransactionForm.date := TransactionForm.date f |}, w)
      else (f, w)
  | change_type value =>
      ({| TransactionForm.description := TransactionForm.description f;
          TransactionForm.amount := TransactionForm.amount f;
          TransactionForm.type := value;
          TransactionForm.category := TransactionForm.category f;
          TransactionForm.user := TransactionForm.user f;
          TransactionForm.date := TransactionForm.date f |}, w)
  | change_category value =>
      if decide (TransactionForm.type f ≠ income
                 ∧ value ∈ categories (state w))
      then ({| TransactionForm.description := TransactionForm.description f;
               TransactionForm.amount := TransactionForm.amount f;
               TransactionForm.type := TransactionForm.type f;
               TransactionForm.category := value;
               TransactionForm.user := TransactionForm.user f;
               TransactionForm.date := TransactionForm.date f |}, w)
      else (f, w)
  | submit uuid => TransactionForm.handleSubmit uuid f w
  end.

(** The form from its mounting on, one event after the other. *)
Definition session (today : string) (inputs : list Input) (w : World)
    : TransactionForm.t * World :=
  fold_left input inputs
    (initial (categories (state w)) (users (state w)) today, w).

End FormSession.
End FormSession.

(** *** The actions on the state *)
Section actions.
Context `{!Host} `{!Trim} `{!JSONStringify (list Transaction)}
  `{!JSONStringify (list string)} `{!JSONStringify float}.

(** What the user can do to the state: submit the form, delete a
    transaction, add or delete a category or a user, update the budget,
    export. *)
Inductive Action :=
  | do_handleSubmit (uuid : string) (f : TransactionForm.t)
  | do_deleteTransaction (id' : string)
  | do_addCategory (newCategory : string)
  | do_deleteCategory (categoryToDelete : string)
  | do_addUser (newUser : string)
  | do_deleteUser (userToDelete : string)
  | do_handleUpdate (newBudget : string)
  | do_exportToCsv.

Definition act (w : World) (a : Action) : World :=
  match a with
  | do_handleSubmit uuid f => (TransactionForm.handleSubmit uuid f w).2
  | do_deleteTransaction id' => deleteTransaction id' w
  | do_addCategory newCategory => (CategoryManager.handleAdd newCategory w).2
  | do_deleteCategory categoryToDelete => deleteCategory categoryToDelete w
  | do_addUser newUser => (UserManager.handleAdd newUser w).2
  | do_deleteUser userToDelete => deleteUser userToDelete w
  | do_handleUpdate newBudget => BudgetManager.handleUpdate newBudget w
  | do_exportToCsv => exportToCsv w
  end.

Definition acts (actions : list Action) (w : World) : World :=
  fold_left act actions w.

(** The identifiers drawn for the submits of a list of actions. *)
Definition drawn (actions : list Action) : list string :=
  omap (λ a, match a with do_handleSubmit uuid _ => Some uuid | _ => None end)
    actions.

(** The storage key an action may write, if any. *)
Definition key_of (a : Action) : option string :=
  match a with
  | do_handleSubmit _ _ | do_deleteTransaction _ => Some "transactions"
  | do_addCategory _ | do_deleteCategory _ => Some "categories"
  | do_addUser _ | do_deleteUser _ => Some "users"
  | do_handleUpdate _ => Some "budget"
  | do_exportToCsv => None
  end.

End actions.

(** The lists hold no duplicate and no empty entry, and the budget is a
    number that is not negative. *)
Definition well_kept (st : AppState) : Prop :=
  NoDup (categories st) ∧ ("" ∉ categories st)
  ∧ NoDup (users st) ∧ ("" ∉ users st)
  ∧ (0 <=? budget st)%float = true.

(** A transaction as the form makes them: its user is one of the list; an
    income has no category, an expense has one of the list (or the empty
    one, which the form starts with when the list is empty). *)
Definition from_form (categories users : list string) (t : Transaction)
    : Prop :=
  user t ∈ users
  ∧ match category t with
    | None => type t = income
    | Some c => type t ≠ income ∧ (c = "" ∨ c ∈ categories)
    end.

(** What holds of the form and the world all along a session started in
    [w]: the lists are those of [w], the user and the category of the form
    are of these lists (or empty), and the transactions are those of [w] or
    made by the form. *)
Definition in_session (w : World) (fw : TransactionForm.t * World) : Prop :=
  categories (state fw.2) = categories (state w)
  ∧ users (state fw.2) = users (state w)
  ∧ (TransactionForm.user fw.1 = ""
     ∨ TransactionForm.user fw.1 ∈ users (state w))
  ∧ (TransactionForm.category fw.1 = ""
     ∨ TransactionForm.category fw.1 ∈ categories (state w))
  ∧ ∀ t, t ∈ transactions (state fw.2) →
      t ∈ transactions (state w)
      ∨ from_form (categories (state w)) (users (state w)) t.

(** *** State and storage area in step *)
Section in_sync.
Context `{!JSONParse (list Transaction)} `{!JSONParse (list string)}
  `{!JSONParse float}.

(** The item of [key] reads back as [v], or there is none and [v] is the
    default. *)
Definition synced {T : Type} `{!JSONParse T} (key : string) (v initialValue : T)
    (env : Env) : Prop :=
  match getItem key (localStorage env) with
  | Some item => item ≠ "" ∧ JSON_parse item = Some v
  | None => v = initialValue
  end.

(** The value of [key] is in step with its item; of another key, nothing
    is asked. *)
Definition synced_key (key : string) (w : World) : Prop :=
  if decide (key = "transactions")
  then synced "transactions" (transactions (state w)) [] (env w)
  else if decide (key = "categories")
  then synced "categories" (categories (state w)) DEFAULT_CATEGORIES (env w)
  else if decide (key = "users")
  then synced "users" (users (state w)) DEFAULT_USERS (env w)
  else if decide (key = "budget")
  then synced "budget" (budget (state w)) DEFAULT_BUDGET (env w)
  else True.

Definition in_sync (w : World) : Prop :=
  synced "transactions" (transactions (state w)) [] (env w)
  ∧ synced "categories" (categories (state w)) DEFAULT_CATEGORIES (env w)
  ∧ synced "users" (users (state w)) DEFAULT_USERS (env w)
  ∧ synced "budget" (budget (state w)) DEFAULT_BUDGET (env w).

End in_sync.

(** ** More of the reference host: [trim] and [JSON.parse]

    [JSON.parse] is written for the texts [JSON.stringify] makes of the
    values the program stores, read at their type: an array of strings, an
    array of transaction objects.  An escape [\u] of a surrogate, which has
    no UTF-8 form, is not a text of this host. *)
Module RefJSON.

Definition rev_string (s : string) : string :=
  string_of_list_ascii (rev (list_ascii_of_string s)).

(** [String.prototype.trim], on ASCII white space. *)
Definition trim (s : string) : string :=
  rev_string (Ref.trimStart (rev_string (Ref.trimStart s))).

#[export] Instance trim_host : Trim := trim.

#[local] Set Warnings "-register-all".
Inductive json :=
  | JNull
  | JBool (b : bool)
  | JNumber (x : float)
  | JString (s : string)
  | JArray (elements : list json)
  | JObject (members : list (string * json)).

Definition isSpace (c : ascii) : bool :=
  let n := nat_of_ascii c in
  bool_decide (n = 32 ∨ n = 9 ∨ n = 10 ∨ n = 13)%nat.

Fixpoint skipSpace (s : string) : string :=
  match s with
  | String c s' => if isSpace c then skipSpace s' else s
  | EmptyString => EmptyString
  end.

Definition hexValue (c : ascii) : option N :=
  let n := N.of_nat (nat_of_ascii c) in
  if decide (48 ≤ n ≤ 57)%N then Some (n - 48)%N
  else if decide (97 ≤ n ≤ 102)%N then Some (n - 87)%N
  else if decide (65 ≤ n ≤ 70)%N then Some (n - 55)%N
  else None.

Definition byte (n : N) : ascii := ascii_of_N n.

(** The UTF-8 form of a code point of the basic plane. *)
Definition utf8 (cp : N) : option string :=
  if decide (cp < 128)%N then Some (String (byte cp) "")
  else if decide (cp < 2048)%N
  then Some (String (byte (192 + cp / 64))
               (String (byte (128 + cp mod 64)) ""))
  else if decide (55296 ≤ cp ≤ 57343)%N then None
  else Some (String (byte (224 + cp / 4096))
               (String (byte (128 + (cp / 64) mod 64))
                  (String (byte (128 + cp mod 64)) ""))).

Definition simpleEscape (c : ascii) : option ascii :=
  if decide (c = dquote) then Some dquote
  else if decide (c = "\"%char) then Some "\"%char
  else if decide (c = "/"%char) then Some "/"%char
  else if decide (c = "b"%char) then Some (ascii_of_nat 8)
  else if decide (c = "f"%char) then Some (ascii_of_nat 12)
  else if decide (c = "n"%char) then Some (ascii_of_nat 10)
  else if decide (c = "r"%char) then Some (ascii_of_nat 13)
  else if decide (c = "t"%char) then Some (ascii_of_nat 9)
  else None.

(** The characters of a string literal after its opening quote, and what
    follows the closing one. *)
Fixpoint stringBody (s : string) : option (string * string) :=
  match s with
  | EmptyString => None
  | String c r =>
      if decide (c = dquote) then Some (EmptyString, r)
      else if decide (c = "\"%char) then
        match r with
        | String e r' =>
            if decide (e = "u"%char) then
              match r' with
              | String h1 (String h2 (String h3 (String h4 r''))) =>
                  d1 ← hexValue h1; d2 ← hexValue h2;
                  d3 ← hexValue h3; d4 ← hexValue h4;
                  u ← utf8 (((d1 * 16 + d2) * 16 + d3) * 16 + d4)%N;
                  '(body, rest) ← stringBody r'';
                  Some (u ++ body, rest)
              | _ => None
              end
            else
              ch ← simpleEscape e;
              '(body, rest) ← stringBody r';
              Some (String ch body, rest)
        | EmptyString => None
        end
      else if decide (nat_of_ascii c < 32)%nat then None
      else
        '(body, rest) ← stringBody r;
        Some (String c body, rest)
  end.

Definition isNumberChar (c : ascii) : bool :=
  let n := nat_of_ascii c in
  bool_decide (48 ≤ n ≤ 57 ∨ n = 43 ∨ n = 45 ∨ n = 46 ∨ n = 69 ∨ n = 101)%nat.

(** The characters of a number at the head of [s], and the rest. *)
Fixpoint numberSpan (s : string) : string * string :=
  match s with
  | String c s' =>
      if isNumberChar c
      then let '(token, rest) := numberSpan s' in (String c token, rest)
      else (EmptyString, s)
  | EmptyString => (EmptyString, EmptyString)
  end.

Fixpoint stripPrefix (p s : string) : option string :=
  match p, s with
  | EmptyString, _ => Some s
  | String a p', String b s' =>
      if decide (a = b) then stripPrefix p' s' else None
  | _, _ => None
  end.

Definition literal (s : string) : option (json * string) :=
  match stripPrefix "null" s, stripPrefix "true" s, stripPrefix "false" s with
  | Some rest, _, _ => Some (JNull, rest)
  | _, Some rest, _ => Some (JBool true, rest)
  | _, _, Some rest => Some (JBool false, rest)
  | _, _, _ =>
      let '(token, rest) := numberSpan s in
      x ← Ref.parse_number token; Some (JNumber x, rest)
  end.

(** A value at the head of [s], and the rest; [fuel] bounds the calls. *)
Fixpoint value (fuel : nat) (s : string) : option (json * string) :=
  match fuel with
  | O => None
  | S n =>
      match skipSpace s with
      | EmptyString => None
      | String c r =>
          if decide (c = dquote) then
            '(str, rest) ← stringBody r; Some (JString str, rest)
          else if decide (c = "["%char) then
            match skipSpace r with
            | String "]" rest => Some (JArray [], rest)
            | _ => '(vs, rest) ← elements n r; Some (JArray vs, rest)
            end
          else if decide (c = "{"%char) then
            match skipSpace r with
            | String "}" rest => Some (JObject [], rest)
            | _ => '(ms, rest) ← members n r; Some (JObject ms, rest)
            end
          else literal (String c r)
      end
  end
with elements (fuel : nat) (s : string) : option (list json * string) :=
  match fuel with
  | O => None
  | S n =>
      '(v, r) ← value n s;
      match skipSpace r with
      | String "," r' => '(vs, rest) ← elements n r'; Some (v :: vs, rest)
      | String "]" rest => Some ([v], rest)
      | _ => None
      end
  end
with members (fuel : nat) (s : string)
    : option (list (string * json) * string) :=
  match fuel with
  | O => None
  | S n =>
      match skipSpace s with
      | String c r =>
          if decide (c = dquote) then
            '(k, r1) ← stringBody r;
            match skipSpace r1 with
            | String ":" r2 =>
                '(v, r3) ← value n r2;
                match skipSpace r3 with
                | String "," r4 =>
                    '(ms, rest) ← members n r4; Some ((k, v) :: ms, rest)
                | String "}" rest => Some ([(k, v)], rest)
                | _ => None
                end
            | _ => None
            end
          else None
      | EmptyString => None
      end
  end.

(** [JSON.parse]: one value and nothing after it but white space. *)
Definition parse (s : string) : option json :=
  '(v, rest) ← value (2 * String.length s + 2) s;
  match skipSpace rest with
  | EmptyString => Some v
  | _ => None
  end.

(** *** The values read at their type *)

Definition as_string (j : json) : option string :=
  match j with JString s => Some s | _ => None end.

Definition as_number (j : json) : option float :=
  match j with JNumber x => Some x | _ => None end.

Definition as_type (s : string) : option TransactionType :=
  if decide (s = "income") then Some income
  else if decide (s = "fixed-expense") then Some fixed_expense
  else if decide (s = "variable-expense") then Some variable_expense
  else None.

(** The value of a property; of two with the same name, the last one. *)
Definition property (key : string) (members : list (string * json))
    : option json :=
  fold_left (λ found m, if decide (m.1 = key) then Some m.2 else found)
    members None.

(** A property that may be missing: [undefined] in the program. *)
Definition as_optional_string (j : option json) : option (option string) :=
  match j with
  | None => Some None
  | Some (JString c) => Some (Some c)
  | Some _ => None
  end.

Definition as_transaction (j : json) : option Transaction :=
  match j with
  | JObject ms =>
      match property "id" ms ≫= as_string,
            property "description" ms ≫= as_string,
            property "amount" ms ≫= as_number,
            (property "type" ms ≫= as_string) ≫= as_type,
            as_optional_string (property "category" ms),
            property "date" ms ≫= as_string,
            property "user" ms ≫= as_string with
      | Some i, Some d, Some a, Some ty, Some c, Some dt, Some u =>
          Some {| id := i; description := d; amount := a; type := ty;
                  category := c; date := dt; user := u |}
      | _, _, _, _, _, _, _ => None
      end
  | _ => None
  end.

Definition as_list {A : Type} (f : json → option A) (j : json)
    : option (list A) :=
  match j with JArray l => mapM f l | _ => None end.

#[export] Instance parse_string_list : JSONParse (list string) :=
  λ s, parse s ≫= as_list as_string.
#[export] Instance parse_transaction_list : JSONParse (list Transaction) :=
  λ s, parse s ≫= as_list as_transaction.

End RefJSON.

(** ** More sample data *)
Module Stories.

(** The form filled in for a lunch. *)
Definition lunch : TransactionForm.t :=
  {| TransactionForm.description := "Lunch";
     TransactionForm.amount := "12.50";
     TransactionForm.type := variable_expense;
     TransactionForm.category := "Comida";
     TransactionForm.user := "Usuario 1";
     TransactionForm.date := "2024-02-10" |}.

(** The same form for a pay of the same day. *)
Definition pay : TransactionForm.t :=
  {| TransactionForm.description := "Pay";
     TransactionForm.amount := "1500";
     TransactionForm.type := income;
     TransactionForm.category := "Comida";
     TransactionForm.user := "Usuario 2";
     TransactionForm.date := "2024-02-10" |}.

(** An afternoon at the screens: every kind of action, with inputs that
    are refused among them. *)
Definition afternoon : list Action :=
  [ do_addCategory "  Viajes ";
    do_addCategory "Comida";
    do_addCategory "   ";
    do_addUser "Ana";
    do_handleSubmit "id-1" lunch;
    do_handleSubmit "id-2" pay;
    do_handleSubmit "id-3" Samples.refund;
    do_handleUpdate "-5";
    do_handleUpdate "2500.50";
    do_deleteUser "Usuario 2";
    do_deleteCategory "Ocio";
    do_exportToCsv;
    do_deleteTransaction "id-3" ].

(** A browser whose storage area holds a budget and has no room for a
    longer one. *)
Definition tightEnv : Env :=
  {| localStorage := {| items := {[ "budget" := "2500" ]}; quota := 10 |};
     events := [] |}.

End Stories.

(** * Properties *)

(** ** The sort *)
Section Array_sort_facts.
Context {A : Type} (comparefn : A → A → option Z).

Lemma elem_of_sort_insert x y l :
  y ∈ sort_insert comparefn x l ↔ y = x ∨ y ∈ l.
Proof.
  induction l as [|z l IH]; simpl.
  - rewrite list_elem_of_singleton, elem_of_nil. tauto.
  - destruct (0 <? SortCompare comparefn x z)%Z; rewrite !elem_of_cons;
      [rewrite IH|]; tauto.
Qed.

Lemma elem_of_Array_sort y l : y ∈ Array_sort comparefn l ↔ y ∈ l.
Proof.
  induction l as [|x l IH]; simpl; [done|].
  rewrite elem_of_sort_insert, elem_of_cons, IH. done.
Qed.

Lemma sort_insert_Permutation x l : sort_insert comparefn x l ≡ₚ x :: l.
Proof.
  induction l as [|y l IH]; simpl; [done|].
  destruct (0 <? SortCompare comparefn x y)%Z; [|done].
  rewrite IH. apply Permutation_swap.
Qed.

Lemma Array_sort_Permutation l : Array_sort comparefn l ≡ₚ l.
Proof.
  induction l as [|x l IH]; simpl; [done|].
  by rewrite sort_insert_Permutation, IH.
Qed.

End Array_sort_facts.

Section by_key_facts.
Context {A : Type} (key : A → option Z).

Lemma SortCompare_keys x y kx ky :
  key x = Some kx → key y = Some ky →
  (0 <? SortCompare (by_key_desc key) x y)%Z = (kx <? ky)%Z.
Proof.
  intros Hx Hy. unfold SortCompare, by_key_desc. rewrite Hx, Hy. simpl.
  destruct (Z.ltb_spec 0 (ky - kx)), (Z.ltb_spec kx ky); lia.
Qed.

Lemma SortCompare_pos x y :
  (0 <? SortCompare (by_key_desc key) x y)%Z = true →
  ∃ kx ky, key x = Some kx ∧ key y = Some ky ∧ (kx < ky)%Z.
Proof.
  unfold SortCompare, by_key_desc.
  destruct (key y) as [ky|], (key x) as [kx|]; simpl; try done.
  intros H%Z.ltb_lt. exists kx, ky. repeat split; lia.
Qed.

Lemma key_ge_trans x y z : key_ge key x y → key_ge key y z → key_ge key x z.
Proof.
  intros (kx & ky & Hx & Hy & ?) (ky' & kz & Hy' & Hz & ?).
  rewrite Hy in Hy'. injection Hy' as <-.
  exists kx, kz. repeat split; [done..|lia].
Qed.

Lemma sort_insert_sorted x l :
  is_Some (key x) → Forall (λ y, is_Some (key y)) l →
  StronglySorted (key_ge key) l →
  StronglySorted (key_ge key) (sort_insert (by_key_desc key) x l).
Proof.
  intros [kx Hx] Hvalid Hsorted. induction Hsorted as [|y l Hl IH Hy]; simpl.
  - repeat constructor.
  - apply Forall_cons in Hvalid as [[ky Hky] Hvalid].
    rewrite (SortCompare_keys x y kx ky) by done.
    destruct (Z.ltb_spec kx ky) as [Hlt|Hge].
    + constructor; [by apply IH|].
      apply Forall_forall. intros z [->|Hz]%elem_of_sort_insert.
      * exists ky, kx. repeat split; [done..|lia].
      * rewrite Forall_forall in Hy. by apply Hy.
    + constructor; [by constructor|].
      assert (key_ge key x y) as Hxy by (exists kx, ky; done).
      constructor; [done|].
      eapply Forall_impl; [exact Hy|]. intros z Hz. by eapply key_ge_trans.
Qed.

(** The sort orders every list whose keys are all numbers. *)
Lemma Array_sort_sorted l :
  Forall (λ y, is_Some (key y)) l →
  StronglySorted (key_ge key) (Array_sort (by_key_desc key) l).
Proof.
  induction 1 as [|x l Hx Hl IH]; simpl; [constructor|].
  apply sort_insert_sorted; [done| |done].
  apply Forall_forall. intros y Hy%elem_of_Array_sort.
  rewrite Forall_forall in Hl. by apply Hl.
Qed.

(** Stability: elements of equal key keep their relative order. *)
Lemma filter_sort_insert d x l :
  filter (has_key key d) (sort_insert (by_key_desc key) x l) =
  filter (has_key key d) (x :: l).
Proof.
  induction l as [|y l IH]; simpl; [done|].
  destruct (0 <? SortCompare (by_key_desc key) x y)%Z eqn:Hc; [|done].
  apply SortCompare_pos in Hc as (kx & ky & Hx & Hy & Hlt).
  rewrite (filter_cons _ y), IH, !filter_cons. unfold has_key.
  repeat case_decide; try done; simplify_eq; lia.
Qed.

Lemma filter_Array_sort d l :
  filter (has_key key d) (Array_sort (by_key_desc key) l) =
  filter (has_key key d) l.
Proof.
  induction l as [|x l IH]; simpl; [done|].
  by rewrite filter_sort_insert, !filter_cons, IH.
Qed.

Lemma StronglySorted_filter (R : relation A) (P : A → Prop)
    `{!∀ x, Decision (P x)} l :
  StronglySorted R l → StronglySorted R (filter P l).
Proof.
  induction 1 as [|x l Hl IH Hx]; [constructor|].
  rewrite filter_cons. case_decide; [|done].
  constructor; [done|].
  apply Forall_forall. intros y [_ Hy]%list_elem_of_filter.
  rewrite Forall_forall in Hx. by apply Hx.
Qed.

Lemma key_ge_head x l y :
  StronglySorted (key_ge key) (x :: l) → is_Some (key x) → y ∈ x :: l →
  ∃ kx ky, key x = Some kx ∧ key y = Some ky ∧ (ky ≤ kx)%Z.
Proof.
  intros [Hx _]%StronglySorted_cons [kx Hkx] [->|Hy]%elem_of_cons.
  - exists kx, kx. done.
  - rewrite Forall_forall in Hx. by apply Hx.
Qed.

(** A list ordered by [key_ge] is determined by its sublists of equal key:
    every stable sort of a list gives the result of [Array_sort]. *)
Lemma stable_sort_unique l1 l2 :
  StronglySorted (key_ge key) l1 → StronglySorted (key_ge key) l2 →
  Forall (λ y, is_Some (key y)) l1 → Forall (λ y, is_Some (key y)) l2 →
  (∀ d, filter (has_key key d) l1 = filter (has_key key d) l2) →
  l1 = l2.
Proof.
  intros Hs1. revert l2.
  induction l1 as [|x l1 IH]; intros l2 Hs2 Hv1 Hv2 Heq.
  - destruct l2 as [|y l2]; [done|].
    apply Forall_cons in Hv2 as [[ky Hy] _].
    specialize (Heq ky). rewrite filter_cons in Heq.
    by rewrite decide_True in Heq.
  - pose proof Hv1 as [[kx Hx] Hv1']%Forall_cons.
    destruct l2 as [|y l2].
    { specialize (Heq kx). rewrite filter_cons in Heq.
      by rewrite decide_True in Heq. }
    pose proof Hv2 as [[ky Hy] Hv2']%Forall_cons.
    assert (x ∈ y :: l2) as Hxin.
    { assert (x ∈ filter (has_key key kx) (y :: l2)) as Hin.
      { rewrite <-Heq, filter_cons, decide_True by done. by left. }
      by apply list_elem_of_filter in Hin as [_ ?]. }
    assert (y ∈ x :: l1) as Hyin.
    { assert (y ∈ filter (has_key key ky) (x :: l1)) as Hin.
      { rewrite Heq, filter_cons, decide_True by done. by left. }
      by apply list_elem_of_filter in Hin as [_ ?]. }
    destruct (key_ge_head y l2 x) as (ky' & kx' & ? & ? & ?); [done..|].
    destruct (key_ge_head x l1 y) as (kx'' & ky'' & ? & ? & ?); [done..|].
    simplify_eq. assert (kx = ky) as -> by lia.
    pose proof (Heq ky) as Hk.
    rewrite !filter_cons, !decide_True in Hk by done.
    injection Hk as -> Hk. f_equal.
    apply StronglySorted_cons in Hs1 as [_ Hs1].
    apply StronglySorted_cons in Hs2 as [_ Hs2].
    apply IH; [done..|]. intros d.
    destruct (decide (d = ky)) as [->|Hne]; [done|].
    specialize (Heq d). rewrite !filter_cons in Heq.
    rewrite !decide_False in Heq; [done|unfold has_key; congruence..].
Qed.

(** Whatever algorithm the engine uses, if its result is ordered and keeps
    the elements of equal key in their order, it is the result of
    [Array_sort]. *)
Corollary Array_sort_unique l l' :
  Forall (λ y, is_Some (key y)) l →
  StronglySorted (key_ge key) l' →
  l' ≡ₚ l →
  (∀ d, filter (has_key key d) l' = filter (has_key key d) l) →
  l' = Array_sort (by_key_desc key) l.
Proof.
  intros Hvalid Hsorted Hperm Hstable.
  apply stable_sort_unique; [done|by apply Array_sort_sorted|..].
  - by rewrite Hperm.
  - by rewrite Array_sort_Permutation.
  - intros d. by rewrite filter_Array_sort.
Qed.

End by_key_facts.

(** ** The hook *)
Section useLocalStorage_facts.
Context {T : Type} `{!JSONStringify T}.

Lemma setValue_value key (value : T + (T → T)) storedValue env :
  (setValue key value storedValue env).1 = apply_to value storedValue.
Proof. done. Qed.

(** A write touches no other key, whether it succeeds or not. *)
Lemma setValue_getItem_ne key key' (value : T + (T → T)) storedValue env :
  key ≠ key' →
  getItem key' (localStorage (setValue key value storedValue env).2) =
  getItem key' (localStorage env).
Proof.
  intros Hne. unfold setValue. simpl.
  destruct (JSON_stringify _) as [text|]; [|done].
  destruct (setItem _ _ _) as [s|] eqn:Hset; [|done].
  unfold setItem in Hset. case_decide; [|done]. injection Hset as <-.
  unfold getItem. simpl. by rewrite lookup_insert_ne.
Qed.

End useLocalStorage_facts.

(** ** The state after each operation *)
Section App_facts.
Context `{!Host} `{!JSONStringify (list Transaction)}
  `{!JSONStringify (list string)} `{!JSONStringify float}.

Lemma state_setTransactions value w :
  state (setTransactions value w) =
  with_transactions (apply_to value (transactions (state w))) (state w).
Proof. done. Qed.

Lemma state_setCategories value w :
  state (setCategories value w) =
  with_categories (apply_to value (categories (state w))) (state w).
Proof. done. Qed.

Lemma state_setUsers value w :
  state (setUsers value w) =
  with_users (apply_to value (users (state w))) (state w).
Proof. done. Qed.

Lemma transactions_addTransaction transaction uuid w :
  transactions (state (addTransaction transaction uuid w)) =
  Array_sort compareFn (withId transaction uuid :: transactions (state w)).
Proof. done. Qed.

Lemma transactions_deleteTransaction id' w :
  transactions (state (deleteTransaction id' w)) =
  filter (λ t, id t ≠ id') (transactions (state w)).
Proof. done. Qed.

(** Deleting an identifier that no transaction has changes nothing in the
    collection. *)
Lemma deleteTransaction_absent id' w :
  Forall (λ t, id t ≠ id') (transactions (state w)) →
  transactions (state (deleteTransaction id' w)) = transactions (state w).
Proof.
  intros Habsent. rewrite transactions_deleteTransaction.
  induction Habsent as [|t txs Ht _ IH]; [done|].
  by rewrite filter_cons, decide_True, IH.
Qed.

Lemma filter_filter_comm {A} (P Q : A → Prop) `{!∀ x, Decision (P x)}
    `{!∀ x, Decision (Q x)} (l : list A) :
  filter P (filter Q l) = filter Q (filter P l).
Proof.
  induction l as [|x l IH]; [done|].
  rewrite !filter_cons. repeat case_decide; rewrite ?filter_cons;
    repeat case_decide; try done; by rewrite IH.
Qed.

Lemma sorted_view_add transaction uuid txs log :
  is_Some (Date_getTime (Draft.date transaction)) →
  sorted_view txs log →
  sorted_view (Array_sort compareFn (withId transaction uuid :: txs))
    (withId transaction uuid :: log).
Proof.
  intros Hvalid (Hsorted & Hall & Hsame & Hperm).
  assert (Forall (λ t, is_Some (timeOf t)) (withId transaction uuid :: txs))
    as Hall' by (by constructor).
  change compareFn with (by_key_desc timeOf). repeat split.
  - by apply Array_sort_sorted.
  - by rewrite Array_sort_Permutation.
  - intros d. specialize (Hsame d). unfold on_date in *.
    by rewrite filter_Array_sort, !filter_cons, Hsame.
  - by rewrite Array_sort_Permutation, Hperm.
Qed.

Lemma sorted_view_delete id' txs log :
  sorted_view txs log →
  sorted_view (filter (λ t, id t ≠ id') txs) (filter (λ t, id t ≠ id') log).
Proof.
  intros (Hsorted & Hall & Hsame & Hperm). repeat split.
  - by apply StronglySorted_filter.
  - apply Forall_forall. intros t [_ Ht]%list_elem_of_filter.
    rewrite Forall_forall in Hall. by apply Hall.
  - intros d. by rewrite !(filter_filter_comm (on_date d)), Hsame.
  - by rewrite Hperm.
Qed.

Lemma sorted_view_run calls : ∀ w log,
  Forall valid_call calls →
  sorted_view (transactions (state w)) log →
  sorted_view (transactions (state (run calls w))) (newest_first log calls).
Proof.
  induction calls as [|c calls IH]; intros w log Hvalid Hview; [done|].
  apply Forall_cons in Hvalid as [Hc Hvalid].
  change (run (c :: calls) w) with (run calls (perform w c)).
  unfold newest_first. cbn [fold_left].
  apply IH; [done|]. destruct c as [transaction uuid|id']; unfold perform.
  - rewrite transactions_addTransaction. by apply sorted_view_add.
  - rewrite transactions_deleteTransaction. by apply sorted_view_delete.
Qed.

(** C1, as amended.  After every sequence of [addTransaction] and
    [deleteTransaction] calls whose dates are dates of the host, started
    from a collection that is sorted by date descending (the empty one, on
    the first run), the collection is sorted by date descending;
    transactions of equal date stand most recently added first (the reverse
    of the order of insertion), in front of those of the start; and the
    collection holds exactly the transactions of the start and those added,
    less those deleted. *)
Theorem transactions_sorted_newest_first calls w :
  StronglySorted date_ge (transactions (state w)) →
  Forall (λ t, is_Some (timeOf t)) (transactions (state w)) →
  Forall valid_call calls →
  StronglySorted date_ge (transactions (state (run calls w)))
  ∧ (∀ d, filter (on_date d) (transactions (state (run calls w))) =
          filter (on_date d) (newest_first (transactions (state w)) calls))
  ∧ transactions (state (run calls w))
    ≡ₚ newest_first (transactions (state w)) calls.
Proof.
  intros Hsorted Hdates Hvalid.
  destruct (sorted_view_run calls w (transactions (state w)) Hvalid)
    as (? & _ & ? & ?); done.
Qed.

End App_facts.

(** ** Aggregation *)
Section aggregation_facts.

Lemma fold_aggregate_step txs : ∀ acc,
  fold_left aggregate_step txs acc =
  {| totalIncome :=
       fold_left PrimFloat.add (amounts_of income txs) (totalIncome acc);
     totalFixedExpenses :=
       fold_left PrimFloat.add (amounts_of fixed_expense txs)
         (totalFixedExpenses acc);
     totalVariableExpenses :=
       fold_left PrimFloat.add (amounts_of variable_expense txs)
         (totalVariableExpenses acc) |}.
Proof.
  induction txs as [|t txs IH]; intros [i f v]; [done|].
  cbn [fold_left]. rewrite IH. unfold amounts_of, aggregate_step.
  rewrite !filter_cons.
  repeat case_decide; unfold of_type in *; try congruence; try done.
Qed.

(** Each total is the sum, from left to right, of the amounts of its kind. *)
Lemma aggregate_sums txs :
  aggregate txs =
  {| totalIncome := fsum (amounts_of income txs);
     totalFixedExpenses := fsum (amounts_of fixed_expense txs);
     totalVariableExpenses := fsum (amounts_of variable_expense txs) |}.
Proof. unfold aggregate. by rewrite fold_aggregate_step. Qed.

(** The three kinds split the collection: every transaction is of exactly
    one kind. *)
Lemma kinds_partition txs :
  txs ≡ₚ filter (of_type income) txs ++ filter (of_type fixed_expense) txs
         ++ filter (of_type variable_expense) txs.
Proof.
  induction txs as [|t txs IH]; [done|].
  rewrite !filter_cons.
  repeat case_decide; unfold of_type in *; try congruence;
    try (by destruct (type t)).
  - simpl. by constructor.
  - apply Permutation_cons_app. exact IH.
  - rewrite app_assoc. apply Permutation_cons_app.
    rewrite <-app_assoc. exact IH.
Qed.

(** Hence any exact measure of the transactions (their amounts in cents,
    say) sums over the collection to the sum of its three sums by kind. *)
Lemma kinds_partition_sum (v : Transaction → Z) txs :
  foldr Z.add 0%Z (v <$> txs) =
  (foldr Z.add 0 (v <$> filter (of_type income) txs)
   + foldr Z.add 0 (v <$> filter (of_type fixed_expense) txs)
   + foldr Z.add 0 (v <$> filter (of_type variable_expense) txs))%Z.
Proof.
  assert (∀ l1 l2 : list Z,
            foldr Z.add 0%Z (l1 ++ l2) =
            (foldr Z.add 0 l1 + foldr Z.add 0 l2)%Z) as Happ.
  { intros l1 l2. induction l1 as [|x l1 IH]; simpl; lia. }
  assert (∀ l1 l2 : list Z,
            l1 ≡ₚ l2 → foldr Z.add 0%Z l1 = foldr Z.add 0%Z l2) as Hperm.
  { induction 1; simpl; lia. }
  rewrite (Hperm _ _ (fmap_Permutation v _ _ (kinds_partition txs))).
  rewrite !fmap_app, !Happ. lia.
Qed.

(** C2, as amended.  For every transaction collection, each of the three
    sub-sums is the sum (in binary64 arithmetic, from left to right in
    collection order) of exactly the amounts of the transactions of its own
    kind, and every transaction is counted in exactly one sub-sum.  The
    three sub-sums add up to the amounts summed kind by kind, which rounding
    can make differ from the amounts summed in another order. *)
Theorem aggregate_by_kind txs :
  totalIncome (aggregate txs) = fsum (amounts_of income txs)
  ∧ totalFixedExpenses (aggregate txs) = fsum (amounts_of fixed_expense txs)
  ∧ totalVariableExpenses (aggregate txs) =
      fsum (amounts_of variable_expense txs)
  ∧ txs ≡ₚ filter (of_type income) txs ++ filter (of_type fixed_expense) txs
           ++ filter (of_type variable_expense) txs.
Proof.
  rewrite aggregate_sums. simpl. repeat split. apply kinds_partition.
Qed.

(** C3, as amended.  For every budget and every transaction collection,
    [remainingBudget] is the budget plus the income total, minus the sum of
    the two expense totals: the expenses are added to each other first, and
    each of the three operations rounds to binary64.  For large inputs this
    need not be the value of [budget + income - fixed - variable] taken
    step by step, nor the exact one. *)
Theorem remainingBudget_grouping budget txs :
  remainingBudget budget txs =
  (budget + fsum (amounts_of income txs)
   - (fsum (amounts_of fixed_expense txs)
      + fsum (amounts_of variable_expense txs)))%float.
Proof.
  unfold remainingBudget, totalExpenses. by rewrite aggregate_sums.
Qed.

End aggregation_facts.

(** ** The cells of the exported file *)
Section csv_facts.
Context `{!Host}.

Lemma length_append (s1 s2 : string) :
  String.length (s1 ++ s2) = (String.length s1 + String.length s2)%nat.
Proof. induction s1 as [|c s1 IH]; simpl; [done|]. by rewrite IH. Qed.

Lemma replaceAll_doubled s :
  replaceAll dquote (String dquote (String dquote "")) s = doubled s.
Proof.
  induction s as [|c s IH]; simpl; [done|]. rewrite IH. by case_decide.
Qed.

Lemma length_doubled s : (String.length s ≤ String.length (doubled s))%nat.
Proof.
  induction s as [|c s IH]; simpl; [done|]. case_decide; simpl; lia.
Qed.

Lemma wrapped_ne raw : wrapped raw ≠ raw.
Proof.
  intros Heq. apply (f_equal String.length) in Heq. unfold wrapped in Heq.
  simpl in Heq. rewrite length_append in Heq. simpl in Heq.
  pose proof (length_doubled raw). lia.
Qed.

Lemma formatCsvCell_comma raw :
  includes comma raw = true → formatCsvCell (Some raw) = wrapped raw.
Proof.
  intros Hc. unfold formatCsvCell. simpl. rewrite Hc.
  by rewrite replaceAll_doubled.
Qed.

Lemma formatCsvCell_no_comma raw :
  includes comma raw = false → formatCsvCell (Some raw) = raw.
Proof. intros Hc. unfold formatCsvCell. simpl. by rewrite Hc. Qed.

(** An absent category is an empty field. *)
Lemma formatCsvCell_undefined : formatCsvCell None = "".
Proof. done. Qed.

Lemma formatCsvCell_default cellData :
  formatCsvCell cellData = formatCsvCell (Some (default "" cellData)).
Proof. by destruct cellData. Qed.

(** What [formatCsvCell] makes of a raw value. *)
Lemma formatCsvCell_spec raw :
  (formatCsvCell (Some raw) = wrapped raw ↔ includes comma raw = true)
  ∧ (includes comma raw = false → formatCsvCell (Some raw) = raw).
Proof.
  split; [split|apply formatCsvCell_no_comma].
  - destruct (includes comma raw) eqn:Hc; [done|].
    rewrite formatCsvCell_no_comma by done. intros Heq.
    by destruct (wrapped_ne raw).
  - apply formatCsvCell_comma.
Qed.

(** C4, as amended.  In every data row, the description, category and user
    fields are wrapped in double quotes, with their double quotes doubled,
    if and only if the raw value contains a comma, and are emitted
    unmodified otherwise (so a value with quote characters and no comma is
    emitted as it is); the identifier, amount, kind and date fields are
    always emitted as they are, never quoted. *)
Theorem csvCells_quoting t i raw :
  rawFields t !! i = Some raw →
  ∃ cell, csvCells t !! i = Some cell
  ∧ (formatted i →
       (cell = wrapped raw ↔ includes comma raw = true)
       ∧ (includes comma raw = false → cell = raw))
  ∧ (¬ formatted i → cell = raw).
Proof.
  unfold formatted. intros Hraw.
  destruct i as [|[|[|[|[|[|[|?]]]]]]]; simplify_eq/=;
    (eexists; split; [done|]; split; intros Hi; [|by (done || (exfalso; lia))]);
    try (exfalso; lia).
  - apply formatCsvCell_spec.
  - rewrite formatCsvCell_default. apply formatCsvCell_spec.
  - apply formatCsvCell_spec.
Qed.

End csv_facts.

(** ** The list maintainers, the exporter and the form *)
Section operations_facts.
Context `{!Host} `{!JSONStringify (list Transaction)}
  `{!JSONStringify (list string)} `{!JSONStringify float}.

Lemma storage_setCategories key value w :
  key ≠ "categories" →
  getItem key (localStorage (env (setCategories value w))) =
  getItem key (localStorage (env w)).
Proof.
  intros Hne. unfold setCategories.
  pose proof (setValue_getItem_ne "categories" key value
                (categories (state w)) (env w)) as Hframe.
  destruct (setValue _ _ _ _) as [v e]. simpl in *. by apply Hframe.
Qed.

Lemma storage_setUsers key value w :
  key ≠ "users" →
  getItem key (localStorage (env (setUsers value w))) =
  getItem key (localStorage (env w)).
Proof.
  intros Hne. unfold setUsers.
  pose proof (setValue_getItem_ne "users" key value
                (users (state w)) (env w)) as Hframe.
  destruct (setValue _ _ _ _) as [v e]. simpl in *. by apply Hframe.
Qed.

(** C6.  For the category and the user list, [add(value)] changes nothing
    when [value] is the empty string or is already in the list (compared
    character by character), and otherwise appends [value] at the end of the
    list, the elements already there and their order unchanged. *)
Theorem add_appends_unless_empty_or_present value w :
  ((value = "" ∨ value ∈ categories (state w)) → addCategory value w = w)
  ∧ ((value ≠ "" ∧ value ∉ categories (state w)) →
       categories (state (addCategory value w)) =
       (categories (state w) ++ [value])%list)
  ∧ ((value = "" ∨ value ∈ users (state w)) → addUser value w = w)
  ∧ ((value ≠ "" ∧ value ∉ users (state w)) →
       users (state (addUser value w)) =
       (users (state w) ++ [value])%list).
Proof.
  unfold addCategory, addUser. repeat split.
  - intros Hno. rewrite decide_False; [done|]. tauto.
  - intros Hyes. by rewrite decide_True.
  - intros Hno. rewrite decide_False; [done|]. tauto.
  - intros Hyes. by rewrite decide_True.
Qed.

Lemma not_elem_of_filter_ne (value : string) (l : list string) :
  value ∉ filter (λ c, c ≠ value) l.
Proof. by intros [? _]%list_elem_of_filter. Qed.

Lemma elem_of_filter_ne (value x : string) (l : list string) :
  x ≠ value → (x ∈ filter (λ c, c ≠ value) l ↔ x ∈ l).
Proof. intros Hne. rewrite list_elem_of_filter. tauto. Qed.

(** C7.  For the category and the user list, [delete(value)] removes every
    entry equal to [value] and no other entry, keeping the order of the
    rest, and leaves the transaction collection as it was, in the state and
    in the storage area, whatever the transactions refer to. *)
Theorem delete_removes_value_only value w :
  (categories (state (deleteCategory value w)) =
     filter (λ c, c ≠ value) (categories (state w))
   ∧ (value ∉ categories (state (deleteCategory value w)))
   ∧ (∀ x, x ≠ value →
        (x ∈ categories (state (deleteCategory value w)) ↔
         x ∈ categories (state w)))
   ∧ transactions (state (deleteCategory value w)) = transactions (state w)
   ∧ getItem "transactions" (localStorage (env (deleteCategory value w))) =
     getItem "transactions" (localStorage (env w)))
  ∧ (users (state (deleteUser value w)) =
       filter (λ u, u ≠ value) (users (state w))
     ∧ (value ∉ users (state (deleteUser value w)))
     ∧ (∀ x, x ≠ value →
          (x ∈ users (state (deleteUser value w)) ↔ x ∈ users (state w)))
     ∧ transactions (state (deleteUser value w)) = transactions (state w)
     ∧ getItem "transactions" (localStorage (env (deleteUser value w))) =
       getItem "transactions" (localStorage (env w))).
Proof.
  split; repeat split; try done;
    try apply not_elem_of_filter_ne;
    try (by apply elem_of_filter_ne).
  - by apply storage_setCategories.
  - by apply storage_setUsers.
Qed.

(** C9.  On an empty collection the exporter shows the notice and does
    nothing else: no blob is made, no link is clicked, and the state and the
    storage area are as before. *)
Theorem exportToCsv_empty w :
  transactions (state w) = [] →
  state (exportToCsv w) = state w
  ∧ localStorage (env (exportToCsv w)) = localStorage (env w)
  ∧ events (env (exportToCsv w)) =
    (events (env w) ++ [alert "No hay transacciones para exportar."])%list.
Proof. intros Hempty. unfold exportToCsv. by rewrite Hempty. Qed.

(** C10.  On a non-empty collection the exporter leaves the transaction
    list, the category list, the user list and the budget as they were, in
    the state and in the storage area; what it does is to offer the file:
    one link to the rows of the collection, added, clicked and removed. *)
Theorem exportToCsv_observes w :
  transactions (state w) ≠ [] →
  state (exportToCsv w) = state w
  ∧ localStorage (env (exportToCsv w)) = localStorage (env w)
  ∧ ∃ link,
      events (env (exportToCsv w)) =
        (events (env w)
         ++ [appendChild link; click link; removeChild link])%list
      ∧ blob_content (href link) = csvContent (transactions (state w))
      ∧ download link = "transacciones.csv".
Proof.
  intros Hne. unfold exportToCsv.
  destruct (transactions (state w)) as [|t txs] eqn:Htxs; [done|].
  rewrite decide_False by done. split; [done|]. split; [done|].
  eexists. split; [simpl; by rewrite <-!app_assoc|done].
Qed.

(** A submitted form with its four required fields filled in stores the
    number [parseFloat] reads in the amount field, whatever that number. *)
Lemma handleSubmit_stores_parseFloat uuid f w :
  TransactionForm.description f ≠ "" → TransactionForm.amount f ≠ "" →
  TransactionForm.date f ≠ "" → TransactionForm.user f ≠ "" →
  ∃ t, t ∈ transactions (state (TransactionForm.handleSubmit uuid f w).2)
       ∧ id t = uuid
       ∧ amount t = parseFloat (TransactionForm.amount f).
Proof.
  intros Hd Ha Hdate Hu. unfold TransactionForm.handleSubmit.
  rewrite decide_False by tauto. cbn [snd].
  rewrite transactions_addTransaction.
  eexists. split; [apply elem_of_Array_sort; left|]; done.
Qed.

End operations_facts.

(** ** Saving and loading *)
Section roundtrip.
Context {T : Type} `{!JSONStringify T, !JSONParse T}.

(** C8, as amended.  When the value is serialised to a non-empty text that
    parses back to it and the storage area accepts the write, saving the
    value under a key and then loading that key returns the value saved;
    loading a key that was never written returns the default supplied. *)
Theorem load_after_save key (v initialValue storedValue : T) text s env :
  (JSON_stringify v = Some text → text ≠ "" → JSON_parse text = Some v →
   setItem key text (localStorage env) = Some s →
   (useLocalStorage_init key initialValue
      (setValue key (inl v) storedValue env).2).1 = v)
  ∧ (getItem key (localStorage env) = None →
     useLocalStorage_init key initialValue env = (initialValue, env)).
Proof.
  split.
  - intros Hstr Hne Hparse Hset. unfold setValue. simpl.
    rewrite Hstr, Hset. unfold setItem in Hset. case_decide; [|done].
    injection Hset as <-. unfold useLocalStorage_init, getItem. simpl.
    rewrite lookup_insert_eq, decide_False, Hparse by done. done.
  - intros Hnone. unfold useLocalStorage_init. by rewrite Hnone.
Qed.

End roundtrip.

(** ** More on the sort *)
Section sort_more.
Context {A : Type}.

(** An element that is filtered out can be inserted anywhere. *)
Lemma filter_sort_insert_out (comparefn : A → A → option Z) (P : A → Prop)
    `{!∀ x, Decision (P x)} x l :
  ¬ P x → filter P (sort_insert comparefn x l) = filter P l.
Proof.
  intros Hx. induction l as [|y l IH]; simpl.
  - by rewrite filter_cons, decide_False.
  - destruct (0 <? SortCompare comparefn x y)%Z.
    + by rewrite !(filter_cons _ y), IH.
    + by rewrite (filter_cons _ x), decide_False.
Qed.

(** The sort leaves an ordered list as it is. *)
Lemma Array_sort_sorted_id (key : A → option Z) l :
  StronglySorted (key_ge key) l → Array_sort (by_key_desc key) l = l.
Proof.
  induction 1 as [|x l Hl IH Hx]; simpl; [done|]. rewrite IH.
  destruct l as [|y l]; simpl; [done|].
  apply Forall_cons in Hx as [(kx & ky & Hkx & Hky & Hle) _].
  rewrite (SortCompare_keys key x y kx ky) by done.
  destruct (Z.ltb_spec kx ky); [lia|done].
Qed.

End sort_more.

(** ** The transaction editor *)
Section editor_facts.
Context `{!Host} `{!JSONStringify (list Transaction)}.

(** X3.  Whatever its date, even one that [Date] does not parse,
    [addTransaction] adds the new transaction and loses none: the collection
    after the call is a rearrangement of the new transaction and the
    collection before, one longer. *)
Theorem addTransaction_adds_one transaction uuid w :
  transactions (state (addTransaction transaction uuid w))
    ≡ₚ withId transaction uuid :: transactions (state w)
  ∧ length (transactions (state (addTransaction transaction uuid w))) =
    S (length (transactions (state w))).
Proof.
  rewrite transactions_addTransaction.
  pose proof (Array_sort_Permutation compareFn
                (withId transaction uuid :: transactions (state w))) as Hp.
  split; [exact Hp|]. by rewrite Hp.
Qed.

Lemma transactions_add_sorted transaction uuid w :
  StronglySorted date_ge (transactions (state w)) →
  transactions (state (addTransaction transaction uuid w)) =
  sort_insert compareFn (withId transaction uuid) (transactions (state w)).
Proof.
  intros Hsorted. rewrite transactions_addTransaction. simpl.
  change compareFn with (by_key_desc timeOf).
  by rewrite (Array_sort_sorted_id timeOf).
Qed.

(** X4.  On a collection sorted by date, adding a transaction under an
    identifier that no transaction has and then deleting that identifier
    gives back the collection as it was, in the same order. *)
Theorem add_then_delete transaction uuid w :
  StronglySorted date_ge (transactions (state w)) →
  Forall (λ t, id t ≠ uuid) (transactions (state w)) →
  transactions
    (state (deleteTransaction uuid (addTransaction transaction uuid w))) =
  transactions (state w).
Proof.
  intros Hsorted Hfresh.
  rewrite transactions_deleteTransaction, transactions_add_sorted by done.
  rewrite filter_sort_insert_out by (simpl; tauto).
  induction Hfresh as [|t txs Ht _ IH]; [done|].
  apply StronglySorted_cons in Hsorted as [_ Hsorted].
  by rewrite filter_cons, decide_True, IH.
Qed.

(** X5.  [deleteTransaction] with an identifier that no transaction has
    leaves the collection as it is; after a deletion no transaction has the
    identifier, so deleting it a second time changes nothing more. *)
Theorem deleteTransaction_once id' w :
  (Forall (λ t, id t ≠ id') (transactions (state w)) →
   transactions (state (deleteTransaction id' w)) = transactions (state w))
  ∧ Forall (λ t, id t ≠ id') (transactions (state (deleteTransaction id' w)))
  ∧ transactions (state (deleteTransaction id' (deleteTransaction id' w))) =
    transactions (state (deleteTransaction id' w)).
Proof.
  assert (Forall (λ t, id t ≠ id')
            (transactions (state (deleteTransaction id' w)))) as Hgone.
  { rewrite transactions_deleteTransaction. apply Forall_forall.
    by intros t [? _]%list_elem_of_filter. }
  split; [apply deleteTransaction_absent|]. split; [exact Hgone|].
  by apply deleteTransaction_absent.
Qed.

(** X6.  On a collection sorted by date, adding a transaction of one kind
    leaves the totals of the other two kinds exactly as they were. *)
Theorem addTransaction_other_totals transaction uuid w :
  StronglySorted date_ge (transactions (state w)) →
  (Draft.type transaction ≠ income →
   totalIncome (aggregate (transactions
     (state (addTransaction transaction uuid w)))) =
   totalIncome (aggregate (transactions (state w))))
  ∧ (Draft.type transaction ≠ fixed_expense →
     totalFixedExpenses (aggregate (transactions
       (state (addTransaction transaction uuid w)))) =
     totalFixedExpenses (aggregate (transactions (state w))))
  ∧ (Draft.type transaction ≠ variable_expense →
     totalVariableExpenses (aggregate (transactions
       (state (addTransaction transaction uuid w)))) =
     totalVariableExpenses (aggregate (transactions (state w)))).
Proof.
  intros Hsorted. rewrite transactions_add_sorted by done.
  rewrite !aggregate_sums. unfold amounts_of. simpl.
  repeat split; intros Hty; by rewrite filter_sort_insert_out.
Qed.

End editor_facts.

(** ** The hook: failures *)
Section hook_failures.
Context {T : Type} `{!JSONStringify T, !JSONParse T}.

(** X7.  When the storage area refuses a write, the value in memory is the
    new one all the same, one error is logged, and the storage area keeps
    what it held: a later load returns the value of the last write that
    succeeded, not the new one. *)
Theorem failed_write_keeps_old key (old new initialValue storedValue : T)
    item text env :
  getItem key (localStorage env) = Some item →
  item ≠ "" →
  JSON_parse item = Some old →
  JSON_stringify new = Some text →
  setItem key text (localStorage env) = None →
  (setValue key (inl new) storedValue env).1 = new
  ∧ events (setValue key (inl new) storedValue env).2 =
    (events env ++ [console_error QuotaExceededError])%list
  ∧ localStorage (setValue key (inl new) storedValue env).2 = localStorage env
  ∧ (useLocalStorage_init key initialValue
       (setValue key (inl new) storedValue env).2).1 = old.
Proof.
  intros Hitem Hne Hparse Hstr Hset. unfold setValue. simpl.
  rewrite Hstr, Hset. repeat split.
  unfold useLocalStorage_init. simpl.
  by rewrite Hitem, decide_False, Hparse.
Qed.

(** X8.  Loading never changes the storage area.  It returns the default
    when the key has no item, when the item is the empty string, and when
    the item does not parse; only in the last case is an error logged. *)
Theorem load_falls_back key (initialValue : T) env :
  localStorage (useLocalStorage_init key initialValue env).2 =
    localStorage env
  ∧ (getItem key (localStorage env) = None
     ∨ getItem key (localStorage env) = Some "" →
     useLocalStorage_init key initialValue env = (initialValue, env))
  ∧ (∀ item, getItem key (localStorage env) = Some item → item ≠ "" →
       @JSON_parse T _ item = None →
       (useLocalStorage_init key initialValue env).1 = initialValue
       ∧ events (useLocalStorage_init key initialValue env).2 =
         (events env ++ [console_error SyntaxError])%list).
Proof.
  unfold useLocalStorage_init. split; [|split].
  - destruct (getItem _ _) as [item|]; [|done].
    case_decide; [done|]. by destruct (JSON_parse item).
  - intros [->| ->]; done.
  - intros item -> Hne ->. rewrite decide_False by done. done.
Qed.

End hook_failures.

(** ** The actions *)
Section action_facts.
Context `{!Host} `{!Trim} `{!JSONStringify (list Transaction)}
  `{!JSONStringify (list string)} `{!JSONStringify float}.

Lemma frame_setTransactions value w :
  categories (state (setTransactions value w)) = categories (state w)
  ∧ users (state (setTransactions value w)) = users (state w)
  ∧ budget (state (setTransactions value w)) = budget (state w)
  ∧ ∀ key, key ≠ "transactions" →
      getItem key (localStorage (env (setTransactions value w))) =
      getItem key (localStorage (env w)).
Proof.
  repeat split. intros key Hne. unfold setTransactions.
  pose proof (setValue_getItem_ne "transactions" key value
                (transactions (state w)) (env w)) as Hframe.
  destruct (setValue _ _ _ _) as [v e]. simpl in *. by apply Hframe.
Qed.

Lemma frame_setCategories value w :
  transactions (state (setCategories value w)) = transactions (state w)
  ∧ users (state (setCategories value w)) = users (state w)
  ∧ budget (state (setCategories value w)) = budget (state w)
  ∧ ∀ key, key ≠ "categories" →
      getItem key (localStorage (env (setCategories value w))) =
      getItem key (localStorage (env w)).
Proof. repeat split. intros key Hne. by apply storage_setCategories. Qed.

Lemma frame_setUsers value w :
  transactions (state (setUsers value w)) = transactions (state w)
  ∧ categories (state (setUsers value w)) = categories (state w)
  ∧ budget (state (setUsers value w)) = budget (state w)
  ∧ ∀ key, key ≠ "users" →
      getItem key (localStorage (env (setUsers value w))) =
      getItem key (localStorage (env w)).
Proof. repeat split. intros key Hne. by apply storage_setUsers. Qed.

Lemma frame_setBudget value w :
  transactions (state (setBudget value w)) = transactions (state w)
  ∧ categories (state (setBudget value w)) = categories (state w)
  ∧ users (state (setBudget value w)) = users (state w)
  ∧ ∀ key, key ≠ "budget" →
      getItem key (localStorage (env (setBudget value w))) =
      getItem key (localStorage (env w)).
Proof.
  repeat split. intros key Hne. unfold setBudget.
  pose proof (setValue_getItem_ne "budget" key value
                (budget (state w)) (env w)) as Hframe.
  destruct (setValue _ _ _ _) as [v e]. simpl in *. by apply Hframe.
Qed.

(** Every action is a call of one setter, or none. *)
Lemma act_shape a w :
  (state (act w a) = state w
   ∧ localStorage (env (act w a)) = localStorage (env w))
  ∨ (key_of a = Some "transactions" ∧ ∃ v, act w a = setTransactions v w)
  ∨ (key_of a = Some "categories" ∧ ∃ v, act w a = setCategories v w)
  ∨ (key_of a = Some "users" ∧ ∃ v, act w a = setUsers v w)
  ∨ (key_of a = Some "budget" ∧ ∃ v, act w a = setBudget v w).
Proof.
  destruct a as [uuid f|id'|c|c|u|u|text|]; simpl.
  - unfold TransactionForm.handleSubmit. case_decide; simpl; [by left|].
    right; left. split; [done|]. by eexists.
  - right; left. split; [done|]. by eexists.
  - unfold addCategory. case_decide; [|by left].
    right; right; left. split; [done|]. by eexists.
  - right; right; left. split; [done|]. by eexists.
  - unfold addUser. case_decide; [|by left].
    right; right; right; left. split; [done|]. by eexists.
  - right; right; right; left. split; [done|]. by eexists.
  - unfold BudgetManager.handleUpdate.
    destruct (negb _ && _); [|by left].
    right; right; right; right. split; [done|]. by eexists.
  - left. unfold exportToCsv. by case_decide.
Qed.

(** X2.  An action changes at most its own value: the transaction editor
    the transactions, the category and user managers their list, the budget
    form the budget, the exporter nothing.  The other three values, and the
    items of every other key of the storage area, are as before. *)
Theorem act_frame a w :
  (∀ key, key_of a ≠ Some key →
     getItem key (localStorage (env (act w a))) =
     getItem key (localStorage (env w)))
  ∧ (key_of a ≠ Some "transactions" →
     transactions (state (act w a)) = transactions (state w))
  ∧ (key_of a ≠ Some "categories" →
     categories (state (act w a)) = categories (state w))
  ∧ (key_of a ≠ Some "users" → users (state (act w a)) = users (state w))
  ∧ (key_of a ≠ Some "budget" → budget (state (act w a)) = budget (state w)).
Proof.
  destruct (act_shape a w)
    as [[Hst Hsto]|[[Hk [v ->]]|[[Hk [v ->]]|[[Hk [v ->]]|[Hk [v ->]]]]]].
  - rewrite Hst, Hsto. by repeat split.
  - destruct (frame_setTransactions v w) as (? & ? & ? & Hkey).
    repeat split; try done; intros; try apply Hkey; congruence.
  - destruct (frame_setCategories v w) as (? & ? & ? & Hkey).
    repeat split; try done; intros; try apply Hkey; congruence.
  - destruct (frame_setUsers v w) as (? & ? & ? & Hkey).
    repeat split; try done; intros; try apply Hkey; congruence.
  - destruct (frame_setBudget v w) as (? & ? & ? & Hkey).
    repeat split; try done; intros; try apply Hkey; congruence.
Qed.

Lemma well_kept_transactions v st :
  well_kept st → well_kept (with_transactions v st).
Proof. done. Qed.

Lemma well_kept_addCategory c w :
  well_kept (state w) → well_kept (state (addCategory c w)).
Proof.
  intros (Hc & Hce & Hu & Hue & Hb). unfold addCategory.
  case_decide as Hadd; [|done]. destruct Hadd as [Hne Hnew].
  repeat split; simpl; try done.
  - apply NoDup_app. repeat split; [done| |apply NoDup_singleton].
    intros x Hx ->%list_elem_of_singleton. done.
  - rewrite elem_of_app, list_elem_of_singleton. intros [?|?]; done.
Qed.

Lemma well_kept_addUser u w :
  well_kept (state w) → well_kept (state (addUser u w)).
Proof.
  intros (Hc & Hce & Hu & Hue & Hb). unfold addUser.
  case_decide as Hadd; [|done]. destruct Hadd as [Hne Hnew].
  repeat split; simpl; try done.
  - apply NoDup_app. repeat split; [done| |apply NoDup_singleton].
    intros x Hx ->%list_elem_of_singleton. done.
  - rewrite elem_of_app, list_elem_of_singleton. intros [?|?]; done.
Qed.

Lemma well_kept_act a w : well_kept (state w) → well_kept (state (act w a)).
Proof.
  intros Hw. destruct a as [uuid f|id'|c|c|u|u|text|]; simpl.
  - unfold TransactionForm.handleSubmit. by case_decide.
  - done.
  - by apply well_kept_addCategory.
  - destruct Hw as (Hc & Hce & Hu & Hue & Hb). repeat split; simpl; try done.
    + by apply NoDup_filter.
    + intros [_ ?]%list_elem_of_filter. done.
  - by apply well_kept_addUser.
  - destruct Hw as (Hc & Hce & Hu & Hue & Hb). repeat split; simpl; try done.
    + by apply NoDup_filter.
    + intros [_ ?]%list_elem_of_filter. done.
  - unfold BudgetManager.handleUpdate.
    destruct (negb (is_nan (parseFloat text))) eqn:Hnan; simpl; [|done].
    destruct (0 <=? parseFloat text)%float eqn:Hpos; [|done].
    destruct Hw as (Hc & Hce & Hu & Hue & Hb). by repeat split.
  - unfold exportToCsv. by case_decide.
Qed.

(** X1.  Whatever the user does, in whatever order (submitting the form,
    deleting transactions, adding and deleting categories and users through
    the managers, updating the budget, exporting), the category list and the
    user list never hold a duplicate or an empty entry, and the budget is
    never [NaN] nor negative, provided this was so at the start. *)
Theorem acts_well_kept actions w :
  well_kept (state w) → well_kept (state (acts actions w)).
Proof.
  revert w. induction actions as [|a actions IH]; intros w Hw; [done|].
  apply (IH (act w a)). by apply well_kept_act.
Qed.


End action_facts.

(** ** The form as the user drives it *)
Section session_facts.
Context `{!Host} `{!JSONStringify (list Transaction)}.

Lemma head_or_empty (l : list string) :
  default "" (head l) = "" ∨ default "" (head l) ∈ l.
Proof. destruct l as [|x l]; simpl; [by left|right; by left]. Qed.

Lemma in_session_initial today w :
  in_session w
    (FormSession.initial (categories (state w)) (users (state w)) today, w).
Proof.
  repeat split; simpl; try apply head_or_empty. intros t Ht. by left.
Qed.

Lemma in_session_input w fw i :
  in_session w fw → in_session w (FormSession.input fw i).
Proof.
  destruct fw as [f w']. intros (Hc & Hu & Huser & Hcat & Htxs).
  simpl in *.
  destruct i as [v|v|v|v|v|v|uuid]; simpl;
    try (repeat split; simpl; done).
  - case_decide as Hin; [|repeat split; simpl; done].
    repeat split; simpl; try done. right. by rewrite <-Hu.
  - case_decide as Hin; [|repeat split; simpl; done].
    destruct Hin as [_ Hin].
    repeat split; simpl; try done. right. by rewrite <-Hc.
  - unfold TransactionForm.handleSubmit.
    case_decide as Hempty; [repeat split; simpl; done|].
    repeat split; simpl; try done.
    intros t [->|Ht]%elem_of_sort_insert; [right|].
    + split; simpl.
      * destruct Huser as [Hnone|Hin]; [|done]. destruct Hempty. tauto.
      * case_decide; [|tauto]. split; [done|]. exact Hcat.
    + apply elem_of_Array_sort in Ht. by apply Htxs.
Qed.

Lemma in_session_run today inputs w :
  in_session w (FormSession.session today inputs w).
Proof.
  unfold FormSession.session.
  pose proof (in_session_initial today w) as Hstart.
  revert Hstart.
  generalize (FormSession.initial (categories (state w))
                (users (state w)) today, w).
  induction inputs as [|i inputs IH]; intros fw Hfw; [done|].
  simpl. apply IH. by apply in_session_input.
Qed.

Lemma no_user_input w fw i :
  users (state w) = [] → fw.2 = w → TransactionForm.user fw.1 = "" →
  (FormSession.input fw i).2 = w
  ∧ TransactionForm.user (FormSession.input fw i).1 = "".
Proof.
  destruct fw as [f w']. simpl. intros Hnone -> Hempty.
  destruct i as [v|v|v|v|v|v|uuid]; simpl; try done.
  - rewrite Hnone. rewrite decide_False; [done|]. apply not_elem_of_nil.
  - by case_decide.
  - unfold TransactionForm.handleSubmit. rewrite decide_True; [done|]. tauto.
Qed.

(** X10.  Along a session of the form (any changes of its inputs and any
    submits, from its mounting on), every transaction that enters the
    collection has a user of the user list, no category if it is an income,
    and a category of the category list (or the empty one) otherwise.  When
    the user list is empty, no submit adds anything: the world stays as it
    was. *)
Theorem session_transactions today inputs w :
  (∀ t, t ∈ transactions (state (FormSession.session today inputs w).2) →
     t ∈ transactions (state w)
     ∨ from_form (categories (state w)) (users (state w)) t)
  ∧ (users (state w) = [] → (FormSession.session today inputs w).2 = w).
Proof.
  split.
  - by destruct (in_session_run today inputs w) as (_ & _ & _ & _ & ?).
  - intros Hnone. unfold FormSession.session.
    assert (∀ fw, fw.2 = w → TransactionForm.user fw.1 = "" →
              (fold_left FormSession.input inputs fw).2 = w) as Hrun.
    { induction inputs as [|i inputs IH]; intros fw Hw Hu; [done|].
      simpl. destruct (no_user_input w fw i Hnone Hw Hu). by apply IH. }
    apply Hrun; [done|]. simpl. by rewrite Hnone.
Qed.

End session_facts.

(** ** The screens *)
Section screen_facts.

Lemma press_one_at_most s b :
  ¬ (isManagingCategories s = true ∧ isManagingUsers s = true) →
  ¬ (isManagingCategories (press s b) = true
     ∧ isManagingUsers (press s b) = true).
Proof.
  destruct s as [[] []], b; unfold press, render; simpl; tauto.
Qed.

Lemma presses_one_at_most buttons : ∀ s,
  ¬ (isManagingCategories s = true ∧ isManagingUsers s = true) →
  ¬ (isManagingCategories (fold_left press buttons s) = true
     ∧ isManagingUsers (fold_left press buttons s) = true).
Proof.
  induction buttons as [|b buttons IH]; intros s Hs; [done|].
  simpl. apply IH. by apply press_one_at_most.
Qed.

(** X11.  From the dashboard, whatever buttons are pressed, the two manager
    flags are never set together; so Volver always leads back to the
    dashboard, and on the dashboard each of the two buttons opens its own
    manager. *)
Theorem screens_switch buttons :
  ¬ (isManagingCategories (fold_left press buttons initialScreens) = true
     ∧ isManagingUsers (fold_left press buttons initialScreens) = true)
  ∧ (render (fold_left press buttons initialScreens) ≠ Dashboard →
     render (press (fold_left press buttons initialScreens) Volver) =
     Dashboard)
  ∧ (render (fold_left press buttons initialScreens) = Dashboard →
     render (press (fold_left press buttons initialScreens)
               GestionarCategorias) = CategoryManagerView
     ∧ render (press (fold_left press buttons initialScreens)
                 GestionarUsuarios) = UserManagerView).
Proof.
  assert (¬ (isManagingCategories (fold_left press buttons initialScreens)
             = true
             ∧ isManagingUsers (fold_left press buttons initialScreens)
               = true)) as Hone.
  { apply presses_one_at_most. simpl. intros [? _]. done. }
  split; [exact Hone|].
  destruct (fold_left press buttons initialScreens) as [[] []];
    unfold press, render; simpl in *; repeat split; try done; tauto.
Qed.

End screen_facts.

(** ** Cells that differ *)
Section csv_more.

Lemma doubled_inj a : ∀ b, doubled a = doubled b → a = b.
Proof.
  induction a as [|c a IH]; intros [|d b]; simpl; try done.
  - by case_decide.
  - by case_decide.
  - repeat case_decide; intros Heq; simplify_eq; try done.
    + f_equal. by apply IH.
    + f_equal. by apply IH.
Qed.

Lemma append_inj_r (a b c : string) : a ++ c = b ++ c → a = b.
Proof.
  revert b. induction a as [|x a IH]; intros [|y b] Heq; [done|..].
  - apply (f_equal String.length) in Heq.
    rewrite (length_append "" c), (length_append (String y b) c) in Heq.
    simpl in Heq. lia.
  - apply (f_equal String.length) in Heq.
    rewrite (length_append "" c), (length_append (String x a) c) in Heq.
    simpl in Heq. lia.
  - change (String x (a ++ c) = String y (b ++ c)) in Heq.
    simplify_eq. f_equal. by apply IH.
Qed.

Lemma includes_append c a b :
  includes c (a ++ b) = includes c a || includes c b.
Proof.
  induction a as [|x a IH]; simpl; [done|]. by case_decide.
Qed.

Lemma includes_doubled a : includes comma (doubled a) = includes comma a.
Proof.
  induction a as [|x a IH]; simpl; [done|].
  repeat case_decide; simplify_eq; simpl; try done;
    repeat case_decide; simplify_eq; done.
Qed.

Lemma includes_wrapped a : includes comma (wrapped a) = includes comma a.
Proof.
  unfold wrapped. simpl. rewrite ?decide_False by done.
  rewrite includes_append, includes_doubled. simpl.
  rewrite ?decide_False by done. by rewrite orb_false_r.
Qed.

(** X12.  [formatCsvCell] never gives two different values the same cell:
    from a cell, the raw value is determined (an absent value counting as
    the empty string). *)
Theorem formatCsvCell_inj x y :
  formatCsvCell x = formatCsvCell y → default "" x = default "" y.
Proof.
  rewrite (formatCsvCell_default x), (formatCsvCell_default y).
  generalize (default "" x) (default "" y). clear x y. intros a b.
  destruct (includes comma a) eqn:Ha, (includes comma b) eqn:Hb.
  - rewrite !formatCsvCell_comma by done. unfold wrapped.
    intros Heq. simplify_eq. by apply doubled_inj, (append_inj_r _ _ _ Heq).
  - rewrite formatCsvCell_comma, formatCsvCell_no_comma by done.
    intros Heq. rewrite <-Heq, includes_wrapped in Hb. congruence.
  - rewrite formatCsvCell_no_comma, formatCsvCell_comma by done.
    intros Heq. rewrite Heq, includes_wrapped in Ha. congruence.
  - by rewrite !formatCsvCell_no_comma.
Qed.

End csv_more.

(** ** State and storage area in step *)
Section sync_facts.
Context `{!Host} `{!Trim} `{!JSONStringify (list Transaction)}
  `{!JSONStringify (list string)} `{!JSONStringify float}
  `{!JSONParse (list Transaction)} `{!JSONParse (list string)}
  `{!JSONParse float}.

Lemma init_synced {T : Type} `{!JSONParse T} key (v initialValue : T) env :
  synced key v initialValue env →
  useLocalStorage_init key initialValue env = (v, env).
Proof.
  unfold synced, useLocalStorage_init.
  destruct (getItem _ _) as [item|]; [|by intros ->].
  intros [Hne ->]. by rewrite decide_False.
Qed.

(** What [synced] looks at. *)
Lemma synced_ext {T : Type} `{!JSONParse T} key (v initialValue : T) env env' :
  getItem key (localStorage env') = getItem key (localStorage env) →
  synced key v initialValue env → synced key v initialValue env'.
Proof. unfold synced. by intros ->. Qed.

(** X13.  When the four values are in step with the storage area, starting
    the application again on the same browser gives the same four values,
    changes nothing in the storage area and logs nothing. *)
Theorem reload_in_sync w : in_sync w → App_init (env w) = w.
Proof.
  destruct w as [[txs cats us b] e]. unfold in_sync. simpl.
  intros (Htxs & Hcats & Hus & Hb). unfold App_init.
  by rewrite (init_synced _ _ _ _ Htxs), (init_synced _ _ _ _ Hcats),
    (init_synced _ _ _ _ Hus), (init_synced _ _ _ _ Hb).
Qed.

(** X14.  An action can put out of step only the value it writes: when the
    four values were in step before it, and the value of the action's own
    key is in step after it, all four are in step after it.  After an
    export, which writes nothing, they are in step as before. *)
Theorem act_in_sync a w :
  in_sync w →
  (∀ key, key_of a = Some key → synced_key key (act w a)) →
  in_sync (act w a).
Proof.
  intros (Htxs & Hcats & Hus & Hb) Hown.
  destruct (act_shape a w)
    as [[Hst Hsto]|[[Hk [v Hv]]|[[Hk [v Hv]]|[[Hk [v Hv]]|[Hk [v Hv]]]]]].
  - unfold in_sync. rewrite Hst.
    repeat split; (eapply synced_ext; [by rewrite Hsto|done]).
  - specialize (Hown _ Hk). unfold synced_key in Hown.
    rewrite decide_True in Hown by done. rewrite Hv in *.
    destruct (frame_setTransactions v w) as (Ec & Eu & Eb & Hkey).
    unfold in_sync. rewrite Ec, Eu, Eb.
    repeat split; [done|..]; (eapply synced_ext; [by apply Hkey|done]).
  - specialize (Hown _ Hk). unfold synced_key in Hown.
    rewrite decide_False, decide_True in Hown by done. rewrite Hv in *.
    destruct (frame_setCategories v w) as (Et & Eu & Eb & Hkey).
    unfold in_sync. rewrite Et, Eu, Eb.
    repeat split; [|done|..]; (eapply synced_ext; [by apply Hkey|done]).
  - specialize (Hown _ Hk). unfold synced_key in Hown.
    rewrite !decide_False, decide_True in Hown by done. rewrite Hv in *.
    destruct (frame_setUsers v w) as (Et & Ec & Eb & Hkey).
    unfold in_sync. rewrite Et, Ec, Eb.
    repeat split; [| |done|]; (eapply synced_ext; [by apply Hkey|done]).
  - specialize (Hown _ Hk). unfold synced_key in Hown.
    rewrite !decide_False, decide_True in Hown by done. rewrite Hv in *.
    destruct (frame_setBudget v w) as (Et & Ec & Eu & Hkey).
    unfold in_sync. rewrite Et, Ec, Eu.
    repeat split; [| | |done]; (eapply synced_ext; [by apply Hkey|done]).
Qed.

End sync_facts.

(** ** Identifiers *)
Section id_facts.
Context `{!Host} `{!Trim} `{!JSONStringify (list Transaction)}
  `{!JSONStringify (list string)} `{!JSONStringify float}.

Lemma amounts_of_delete ty id' txs :
  Forall (λ t, id t = id' → type t ≠ ty) txs →
  amounts_of ty (filter (λ t, id t ≠ id') txs) = amounts_of ty txs.
Proof.
  unfold amounts_of. intros Hkind. f_equal.
  induction Hkind as [|t txs Ht _ IH]; [done|].
  rewrite (filter_cons (λ t, id t ≠ id')).
  case_decide as Hid; rewrite !filter_cons.
  - by rewrite IH.
  - rewrite (decide_False (P := of_type ty t)); [done|].
    apply Ht. by destruct (decide (id t = id')).
Qed.

(** X15.  Deleting an identifier leaves the total of a kind exactly as it
    was when no transaction of that kind has the identifier. *)
Theorem deleteTransaction_other_totals id' w :
  (Forall (λ t, id t = id' → type t ≠ income) (transactions (state w)) →
   totalIncome (aggregate (transactions (state (deleteTransaction id' w)))) =
   totalIncome (aggregate (transactions (state w))))
  ∧ (Forall (λ t, id t = id' → type t ≠ fixed_expense)
       (transactions (state w)) →
     totalFixedExpenses
       (aggregate (transactions (state (deleteTransaction id' w)))) =
     totalFixedExpenses (aggregate (transactions (state w))))
  ∧ (Forall (λ t, id t = id' → type t ≠ variable_expense)
       (transactions (state w)) →
     totalVariableExpenses
       (aggregate (transactions (state (deleteTransaction id' w)))) =
     totalVariableExpenses (aggregate (transactions (state w)))).
Proof.
  rewrite transactions_deleteTransaction, !aggregate_sums. simpl.
  repeat split; intros Hkind; by rewrite amounts_of_delete.
Qed.

Lemma ids_act a w :
  (∃ uuid f, a = do_handleSubmit uuid f
     ∧ (id <$> transactions (state (act w a)))
       ≡ₚ uuid :: (id <$> transactions (state w)))
  ∨ (id <$> transactions (state (act w a)))
    `sublist_of` (id <$> transactions (state w)).
Proof.
  destruct a as [uuid f|id'|c|c|u|u|text|]; cbn [act].
  - unfold TransactionForm.handleSubmit. case_decide; [by right|].
    left. exists uuid, f. split; [done|]. cbn [snd].
    rewrite transactions_addTransaction.
    by rewrite (Array_sort_Permutation compareFn).
  - right. rewrite transactions_deleteTransaction.
    apply fmap_sublist, sublist_filter.
  - right. unfold CategoryManager.handleAdd, addCategory. cbn [snd].
    by case_decide.
  - by right.
  - right. unfold UserManager.handleAdd, addUser. cbn [snd].
    by case_decide.
  - by right.
  - right. unfold BudgetManager.handleUpdate. by destruct (negb _ && _).
  - right. unfold exportToCsv. by case_decide.
Qed.

(** X16.  When the identifiers drawn for the submits are different from one
    another and from the identifiers of the transactions of the start, and
    these are different from one another, then after any sequence of
    actions no two transactions have the same identifier. *)
Theorem acts_ids_unique actions w :
  NoDup (drawn actions ++ (id <$> transactions (state w)))%list →
  NoDup (id <$> transactions (state (acts actions w))).
Proof.
  revert w. induction actions as [|a actions IH]; intros w Hdup.
  { done. }
  apply (IH (act w a)).
  destruct (ids_act a w) as [(uuid & f & -> & Hp)|Hsub].
  - rewrite Hp. by rewrite <-Permutation_middle.
  - eapply sublist_NoDup; [exact Hdup|].
    apply sublist_app; [|done].
    unfold drawn. simpl. destruct a; simpl; try done. by apply sublist_cons.
Qed.

Lemma filter_absent id' (l : list Transaction) :
  id' ∉ id <$> l → filter (λ t, id t ≠ id') l = l.
Proof.
  induction l as [|y l IH]; [done|]. rewrite fmap_cons.
  intros [Hy Hl]%not_elem_of_cons.
  rewrite filter_cons, decide_True by done. f_equal. by apply IH.
Qed.

(** X17.  When no two transactions have the same identifier, the delete
    button of a row removes that transaction and no other. *)
Theorem deleteTransaction_removes_one t w :
  NoDup (id <$> transactions (state w)) →
  t ∈ transactions (state w) →
  transactions (state w)
    ≡ₚ t :: transactions (state (deleteTransaction (id t) w))
  ∧ length (transactions (state w)) =
    S (length (transactions (state (deleteTransaction (id t) w)))).
Proof.
  intros Hdup Hin. rewrite transactions_deleteTransaction.
  assert (transactions (state w)
            ≡ₚ t :: filter (λ t', id t' ≠ id t) (transactions (state w)))
    as Hp; [|split; [done|by rewrite Hp at 1]].
  induction (transactions (state w)) as [|x l IH]; [by inv Hin|].
  rewrite fmap_cons in Hdup. apply NoDup_cons in Hdup as [Hx Hdup].
  rewrite filter_cons. apply elem_of_cons in Hin as [->|Hin].
  - rewrite decide_False by (by intros []). by rewrite filter_absent.
  - rewrite decide_True.
    + rewrite (IH Hdup Hin) at 1. apply perm_swap.
    + intros Heq. apply Hx. rewrite Heq. by apply list_elem_of_fmap_2.
Qed.

End id_facts.
(** * The program on concrete inputs *)

#[local] Existing Instance Ref.host.
#[local] Existing Instance Ref.stringify_float.
#[local] Existing Instance Ref.stringify_string_list.
#[local] Existing Instance Ref.stringify_transaction_list.
#[local] Existing Instance Ref.parse_float.

Lemma float_neq (x y : float) :
  (x =? x)%float = true → (x =? y)%float = false → x ≠ y.
Proof. intros Hx Hxy ->. congruence. Qed.

(** ** The reference host *)

Example Date_getTime_iso :
  Date_getTime "1970-01-01" = Some 0%Z
  ∧ Date_getTime "2024-01-05" = Some 1704412800000%Z
  ∧ Date_getTime "2024-02-30" = None.
Proof. vm_compute. done. Qed.

Example parseFloat_decimals :
  parseFloat "0.1" = Samples.d01 ∧ parseFloat "0.2" = Samples.d02
  ∧ parseFloat "0.3" = Samples.d03 ∧ parseFloat "1500" = 1500%float
  ∧ parseFloat "-5" = (-5)%float ∧ parseFloat "12.50" = 12.5%float.
Proof. vm_compute. done. Qed.

Example Number_toString_decimals :
  Number_toString 1500 = "1500" ∧ Number_toString 12.5 = "12.5"
  ∧ Number_toString Samples.d01 = "0.1"
  ∧ Number_toString (Samples.d01 + Samples.d02) = "0.30000000000000004"
  ∧ Number_toString 1e21 = "1e+21" ∧ Number_toString (-5) = "-5".
Proof. vm_compute. done. Qed.

(** On its first run [App] starts from the defaults, whatever [JSON.parse]
    does. *)
Lemma App_init_fresh `{!JSONParse (list Transaction)}
    `{!JSONParse (list string)} `{!JSONParse float} :
  App_init Samples.freshEnv = Samples.world0.
Proof. done. Qed.

(** ** The scenario of the specification *)

Example scenario_order :
  date <$> transactions (state (run Samples.scenario Samples.world0)) =
  ["2024-01-05"; "2024-01-03"; "2024-01-01"].
Proof. vm_compute. done. Qed.

Example scenario_totals :
  aggregate (transactions (state (run Samples.scenario Samples.world0))) =
  {| totalIncome := 1500; totalFixedExpenses := 800;
     totalVariableExpenses := 300 |}
  ∧ remainingBudget (budget (state Samples.world0))
      (transactions (state (run Samples.scenario Samples.world0))) =
    2400%float.
Proof. vm_compute. done. Qed.

Example scenario_export :
  csvRows (transactions (state (run Samples.scenario Samples.world0))) =
  [ "ID,Descripción,Monto,Tipo,Categoría,Fecha,Usuario";
    "id-1,Salary,1500,income,,2024-01-05,Usuario 1";
    String.concat ","
      [ "id-2"; wrapped "Groceries, weekly"; "300"; "variable-expense";
        "Comida"; "2024-01-03"; "Usuario 1" ];
    "id-3,Rent,800,fixed-expense,Hogar,2024-01-01,Usuario 1" ].
Proof. vm_compute. done. Qed.

(** ** Order of the collection *)

(** C1, witness: the first run starts from the empty collection, the three
    dates of the scenario are dates of the host, and the collection after
    the three calls is as the theorem says. *)
Lemma transactions_sorted_newest_first_witness :
  StronglySorted date_ge (transactions (state Samples.world0))
  ∧ Forall (λ t, is_Some (timeOf t)) (transactions (state Samples.world0))
  ∧ Forall valid_call Samples.scenario
  ∧ StronglySorted date_ge
      (transactions (state (run Samples.scenario Samples.world0)))
  ∧ (∀ d, filter (on_date d)
            (transactions (state (run Samples.scenario Samples.world0))) =
          filter (on_date d)
            (newest_first (transactions (state Samples.world0))
               Samples.scenario))
  ∧ transactions (state (run Samples.scenario Samples.world0))
    ≡ₚ newest_first (transactions (state Samples.world0)) Samples.scenario.
Proof.
  assert (StronglySorted date_ge (transactions (state Samples.world0)))
    as Hsorted by (simpl; constructor).
  assert (Forall (λ t, is_Some (timeOf t))
            (transactions (state Samples.world0)))
    as Hdates by (simpl; constructor).
  assert (Forall valid_call Samples.scenario) as Hvalid.
  { repeat constructor; vm_compute; by eexists. }
  split; [exact Hsorted|]. split; [exact Hdates|]. split; [exact Hvalid|].
  exact (transactions_sorted_newest_first Samples.scenario Samples.world0
           Hsorted Hdates Hvalid).
Defined.

(** C1, counterexample: two transactions of the same date, added one after
    the other on the first run, stand in the collection with the second one
    first, not in the order in which they were inserted. *)
Lemma same_date_insertion_order_counterexample :
  Forall valid_call Samples.same_day
  ∧ transactions (state (run Samples.same_day Samples.world0)) =
    [withId Samples.second "id-2"; withId Samples.first "id-1"]
  ∧ oldest_first [] Samples.same_day =
    [withId Samples.first "id-1"; withId Samples.second "id-2"]
  ∧ filter (on_date 1704412800000)
      (transactions (state (run Samples.same_day Samples.world0))) ≠
    filter (on_date 1704412800000) (oldest_first [] Samples.same_day).
Proof.
  split; [repeat constructor; vm_compute; by eexists|].
  split; [vm_compute; reflexivity|]. split; [vm_compute; reflexivity|].
  vm_compute. intros Heq. discriminate Heq.
Qed.

(** Why the dates must be dates.  A text that [Date] does not parse makes
    the comparator return [NaN] against every other transaction, which is
    not a consistent comparator: ECMAScript leaves the order to the
    implementation.  The insertion sort of this model (as the binary
    insertion sort engines use on short arrays) then leaves 2024-01-01 in
    front of 2024-01-05. *)
Example unparseable_date_order :
  date <$> transactions (state (run Samples.undated Samples.world0)) =
  ["2024-01-01"; "soon"; "2024-01-05"].
Proof. vm_compute. reflexivity. Qed.

(** ** Totals *)

(** C2, counterexample: with a fixed expense of 0.2, a variable expense of
    0.3 and an income of 0.1, the three totals add up to
    0.6000000000000001, while the amounts added in collection order give
    0.6 (the number nearest to the exact sum). *)
Lemma totals_sum_counterexample :
  (totalIncome (aggregate Samples.decimals)
   + totalFixedExpenses (aggregate Samples.decimals)
   + totalVariableExpenses (aggregate Samples.decimals))%float =
    0x1.3333333333334p-1%float
  ∧ fsum (amount <$> Samples.decimals) = 0x1.3333333333333p-1%float
  ∧ (totalIncome (aggregate Samples.decimals)
     + totalFixedExpenses (aggregate Samples.decimals)
     + totalVariableExpenses (aggregate Samples.decimals))%float ≠
    fsum (amount <$> Samples.decimals).
Proof.
  split; [vm_compute; reflexivity|]. split; [vm_compute; reflexivity|].
  apply float_neq; vm_compute; reflexivity.
Qed.

(** C3, counterexample: with a budget of 1e16, an income of 1 and two
    expenses of 1, the program computes (1e16 + 1) - (1 + 1), which is
    9999999999999998, while [budget + income - fixed - variable], each step
    rounded, stays at 1e16.  Neither is the exact value 9999999999999999:
    the program's value is the one it computes without the income. *)
Lemma remainingBudget_counterexample :
  remainingBudget Samples.large_budget Samples.small_amounts =
    9999999999999998%float
  ∧ (Samples.large_budget
     + totalIncome (aggregate Samples.small_amounts)
     - totalFixedExpenses (aggregate Samples.small_amounts)
     - totalVariableExpenses (aggregate Samples.small_amounts))%float =
    1e16%float
  ∧ remainingBudget Samples.large_budget Samples.small_amounts ≠
    (Samples.large_budget
     + totalIncome (aggregate Samples.small_amounts)
     - totalFixedExpenses (aggregate Samples.small_amounts)
     - totalVariableExpenses (aggregate Samples.small_amounts))%float
  ∧ remainingBudget Samples.large_budget Samples.small_amounts =
    remainingBudget Samples.large_budget (tail Samples.small_amounts).
Proof.
  split; [vm_compute; reflexivity|]. split; [vm_compute; reflexivity|].
  split; [apply float_neq; vm_compute; reflexivity|].
  vm_compute. reflexivity.
Qed.

(** ** The exported file *)

(** C4, witness: the description of the groceries of the scenario holds a
    comma, and its cell is the wrapped value. *)
Lemma csvCells_quoting_witness :
  rawFields (withId Samples.groceries "id-2") !! 1%nat =
    Some "Groceries, weekly"
  ∧ ∃ cell, csvCells (withId Samples.groceries "id-2") !! 1%nat = Some cell
    ∧ (formatted 1 →
         (cell = wrapped "Groceries, weekly" ↔
          includes comma "Groceries, weekly" = true)
         ∧ (includes comma "Groceries, weekly" = false →
            cell = "Groceries, weekly"))
    ∧ (¬ formatted 1 → cell = "Groceries, weekly").
Proof.
  split; [reflexivity|].
  apply (csvCells_quoting (withId Samples.groceries "id-2") 1
           "Groceries, weekly").
  reflexivity.
Defined.

(** C4, counterexample: a date that holds a comma is emitted as it is, not
    wrapped in double quotes. *)
Lemma date_with_comma_counterexample :
  rawFields Samples.imported !! 5%nat = Some "January 5, 2024"
  ∧ includes comma "January 5, 2024" = true
  ∧ csvCells Samples.imported !! 5%nat = Some "January 5, 2024"
  ∧ csvCells Samples.imported !! 5%nat ≠ Some (wrapped "January 5, 2024").
Proof.
  split; [reflexivity|]. split; [reflexivity|]. split; [reflexivity|].
  vm_compute. intros Heq. discriminate Heq.
Qed.

(** ** Amounts *)

(** C5, on the failing input.  The form submitted with the amount [-5] adds
    a transaction whose amount is the negative number -5; the budget form,
    given the same text, changes nothing. *)
Theorem negative_amount_is_stored :
  transactions
    (state (TransactionForm.handleSubmit "id-1" Samples.refund
              Samples.world0).2) =
    [ {| id := "id-1"; description := "Refund"; amount := (-5)%float;
         type := variable_expense; category := Some "Comida";
         date := "2024-01-05"; user := "Usuario 1" |} ]
  ∧ (-5 <? 0)%float = true
  ∧ BudgetManager.handleUpdate "-5" Samples.world0 = Samples.world0.
Proof. vm_compute. done. Qed.

(** ** Categories and users *)

(** C6, witness: on the first run, adding the empty string or the category
    Comida changes nothing, adding Viajes appends it, and so does adding
    comida, which differs from Comida by its case; likewise for the users. *)
Lemma add_appends_unless_empty_or_present_witness :
  (addCategory "" Samples.world0 = Samples.world0
   ∧ addCategory "Comida" Samples.world0 = Samples.world0
   ∧ categories (state (addCategory "Viajes" Samples.world0)) =
     (DEFAULT_CATEGORIES ++ ["Viajes"])%list
   ∧ categories (state (addCategory "comida" Samples.world0)) =
     (DEFAULT_CATEGORIES ++ ["comida"])%list)
  ∧ (addUser "" Samples.world0 = Samples.world0
     ∧ addUser "Usuario 2" Samples.world0 = Samples.world0
     ∧ users (state (addUser "Usuario 3" Samples.world0)) =
       (DEFAULT_USERS ++ ["Usuario 3"])%list).
Proof.
  split; [split; [|split; [|split]]|split; [|split]].
  - apply (add_appends_unless_empty_or_present "" Samples.world0).
    left. reflexivity.
  - apply (add_appends_unless_empty_or_present "Comida" Samples.world0).
    right. apply (bool_decide_unpack _). vm_compute. reflexivity.
  - apply (add_appends_unless_empty_or_present "Viajes" Samples.world0).
    apply (bool_decide_unpack _). vm_compute. reflexivity.
  - apply (add_appends_unless_empty_or_present "comida" Samples.world0).
    apply (bool_decide_unpack _). vm_compute. reflexivity.
  - apply (add_appends_unless_empty_or_present "" Samples.world0).
    left. reflexivity.
  - apply (add_appends_unless_empty_or_present "Usuario 2" Samples.world0).
    right. apply (bool_decide_unpack _). vm_compute. reflexivity.
  - apply (add_appends_unless_empty_or_present "Usuario 3" Samples.world0).
    apply (bool_decide_unpack _). vm_compute. reflexivity.
Defined.

(** C7, witness: after the scenario, deleting the category Comida leaves
    the collection as it was; the groceries still refer to Comida. *)
Lemma delete_removes_value_only_witness :
  ("Comida" ∉
     categories
       (state (deleteCategory "Comida"
                 (run Samples.scenario Samples.world0))))
  ∧ transactions
      (state (deleteCategory "Comida"
                (run Samples.scenario Samples.world0))) =
    transactions (state (run Samples.scenario Samples.world0))
  ∧ category <$>
      transactions
        (state (deleteCategory "Comida"
                  (run Samples.scenario Samples.world0))) =
    [None; Some "Comida"; Some "Hogar"].
Proof.
  destruct (delete_removes_value_only "Comida"
              (run Samples.scenario Samples.world0))
    as [(_ & Hgone & _ & Hsame & _) _].
  split; [exact Hgone|]. split; [exact Hsame|].
  rewrite Hsame. vm_compute. reflexivity.
Defined.

(** ** Saving and loading *)

(** C8, witness: a budget of 2500 saved in a storage area with room is the
    budget loaded. *)
Lemma load_after_save_witness :
  JSON_stringify 2500%float = Some "2500"
  ∧ "2500" ≠ ""
  ∧ JSON_parse "2500" = Some 2500%float
  ∧ setItem "budget" "2500" (localStorage Samples.freshEnv) =
    Some {| items := {[ "budget" := "2500" ]}; quota := 5000000 |}
  ∧ (useLocalStorage_init "budget" DEFAULT_BUDGET
       (setValue "budget" (inl 2500%float) DEFAULT_BUDGET
          Samples.freshEnv).2).1 = 2500%float
  ∧ useLocalStorage_init "budget" DEFAULT_BUDGET Samples.freshEnv =
    (DEFAULT_BUDGET, Samples.freshEnv).
Proof.
  assert (JSON_stringify 2500%float = Some "2500") as Hstr
    by (vm_compute; reflexivity).
  assert ("2500" ≠ "") as Hne by discriminate.
  assert (JSON_parse "2500" = Some 2500%float) as Hparse
    by (vm_compute; reflexivity).
  assert (setItem "budget" "2500" (localStorage Samples.freshEnv) =
          Some {| items := {[ "budget" := "2500" ]}; quota := 5000000 |})
    as Hset by (vm_compute; reflexivity).
  destruct (load_after_save "budget" 2500%float DEFAULT_BUDGET DEFAULT_BUDGET
              "2500" {| items := {[ "budget" := "2500" ]}; quota := 5000000 |}
              Samples.freshEnv) as [Hload Hdefault].
  split; [exact Hstr|]. split; [exact Hne|]. split; [exact Hparse|].
  split; [exact Hset|]. split.
  - exact (Hload Hstr Hne Hparse Hset).
  - apply Hdefault. reflexivity.
Defined.

(** C8, counterexample: in a storage area without room the write fails, the
    failure is logged, and loading the key returns the default, not the
    budget saved. *)
Lemma full_storage_counterexample :
  (useLocalStorage_init "budget" DEFAULT_BUDGET
     (setValue "budget" (inl 2500%float) DEFAULT_BUDGET
        Samples.fullEnv).2).1 = DEFAULT_BUDGET
  ∧ events (setValue "budget" (inl 2500%float) DEFAULT_BUDGET
              Samples.fullEnv).2 = [console_error QuotaExceededError]
  ∧ (useLocalStorage_init "budget" DEFAULT_BUDGET
       (setValue "budget" (inl 2500%float) DEFAULT_BUDGET
          Samples.fullEnv).2).1 ≠ 2500%float.
Proof.
  split; [vm_compute; reflexivity|]. split; [vm_compute; reflexivity|].
  apply float_neq; vm_compute; reflexivity.
Qed.

(** ** The exporter *)

(** C9, witness: on the first run the collection is empty and the exporter
    only shows the notice. *)
Lemma exportToCsv_empty_witness :
  transactions (state Samples.world0) = []
  ∧ state (exportToCsv Samples.world0) = state Samples.world0
  ∧ localStorage (env (exportToCsv Samples.world0)) =
    localStorage (env Samples.world0)
  ∧ events (env (exportToCsv Samples.world0)) =
    (events (env Samples.world0)
     ++ [alert "No hay transacciones para exportar."])%list.
Proof.
  split; [reflexivity|]. apply (exportToCsv_empty Samples.world0). reflexivity.
Defined.

(** C10, witness: after the scenario the collection is not empty, and the
    exporter leaves state and storage as they were. *)
Lemma exportToCsv_observes_witness :
  transactions (state (run Samples.scenario Samples.world0)) ≠ []
  ∧ state (exportToCsv (run Samples.scenario Samples.world0)) =
    state (run Samples.scenario Samples.world0)
  ∧ localStorage (env (exportToCsv (run Samples.scenario Samples.world0))) =
    localStorage (env (run Samples.scenario Samples.world0))
  ∧ ∃ link,
      events (env (exportToCsv (run Samples.scenario Samples.world0))) =
        (events (env (run Samples.scenario Samples.world0))
         ++ [appendChild link; click link; removeChild link])%list
      ∧ blob_content (href link) =
        csvContent (transactions (state (run Samples.scenario Samples.world0)))
      ∧ download link = "transacciones.csv".
Proof.
  assert (transactions (state (run Samples.scenario Samples.world0)) ≠ [])
    as Hne by (vm_compute; discriminate).
  split; [exact Hne|].
  exact (exportToCsv_observes (run Samples.scenario Samples.world0) Hne).
Defined.

(** ** The rest of the program on concrete inputs *)

#[local] Existing Instance RefJSON.trim_host.
#[local] Existing Instance RefJSON.parse_string_list.
#[local] Existing Instance RefJSON.parse_transaction_list.

Example trim_spaces :
  String_trim "  Viajes " = "Viajes" ∧ String_trim "   " = ""
  ∧ String_trim "a b" = "a b".
Proof. vm_compute. done. Qed.

Example afternoon_state :
  let w := acts Stories.afternoon Samples.world0 in
  categories (state w) =
    ["Comida"; "Transporte"; "Hogar"; "Salud"; "Educación"; "Viajes"]
  ∧ users (state w) = ["Usuario 1"; "Ana"]
  ∧ budget (state w) = 2500.5%float
  ∧ id <$> transactions (state w) = ["id-2"; "id-1"]
  ∧ length (events (env w)) = 3.
Proof. vm_compute. done. Qed.

Lemma scenario_sorted :
  StronglySorted date_ge
    (transactions (state (run Samples.scenario Samples.world0))).
Proof.
  refine (proj1 (sorted_view_run Samples.scenario Samples.world0 [] _ _)).
  - repeat constructor; vm_compute; by eexists.
  - repeat split; by constructor.
Qed.

Lemma acts_well_kept_witness :
  well_kept (state Samples.world0)
  ∧ well_kept (state (acts Stories.afternoon Samples.world0)).
Proof.
  assert (well_kept (state Samples.world0)) as Hw.
  { repeat split; apply (bool_decide_unpack _); vm_compute; exact I. }
  split; [exact Hw|]. exact (acts_well_kept Stories.afternoon _ Hw).
Defined.

Lemma add_then_delete_witness :
  StronglySorted date_ge
    (transactions (state (run Samples.scenario Samples.world0)))
  ∧ Forall (λ t, id t ≠ "id-4")
      (transactions (state (run Samples.scenario Samples.world0)))
  ∧ transactions
      (state (deleteTransaction "id-4"
                (addTransaction Samples.first "id-4"
                   (run Samples.scenario Samples.world0)))) =
    transactions (state (run Samples.scenario Samples.world0)).
Proof.
  assert (Forall (λ t, id t ≠ "id-4")
            (transactions (state (run Samples.scenario Samples.world0))))
    as Hfresh by (apply (bool_decide_unpack _); vm_compute; exact I).
  split; [exact scenario_sorted|]. split; [exact Hfresh|].
  exact (add_then_delete Samples.first "id-4" _ scenario_sorted Hfresh).
Defined.

Lemma addTransaction_other_totals_witness :
  StronglySorted date_ge
    (transactions (state (run Samples.scenario Samples.world0)))
  ∧ totalIncome (aggregate (transactions
      (state (addTransaction Samples.first "id-4"
                (run Samples.scenario Samples.world0))))) =
    totalIncome (aggregate (transactions
      (state (run Samples.scenario Samples.world0))))
  ∧ totalFixedExpenses (aggregate (transactions
      (state (addTransaction Samples.first "id-4"
                (run Samples.scenario Samples.world0))))) =
    totalFixedExpenses (aggregate (transactions
      (state (run Samples.scenario Samples.world0)))).
Proof.
  split; [exact scenario_sorted|].
  destruct (addTransaction_other_totals Samples.first "id-4" _
              scenario_sorted) as (Hincome & Hfixed & _).
  split; [apply Hincome|apply Hfixed]; discriminate.
Defined.

Lemma failed_write_keeps_old_witness :
  getItem "budget" (localStorage Stories.tightEnv) = Some "2500"
  ∧ "2500" ≠ ""
  ∧ JSON_parse "2500" = Some 2500%float
  ∧ JSON_stringify 12345.5%float = Some "12345.5"
  ∧ setItem "budget" "12345.5" (localStorage Stories.tightEnv) = None
  ∧ (setValue "budget" (inl 12345.5%float) 2500%float Stories.tightEnv).1 =
    12345.5%float
  ∧ events (setValue "budget" (inl 12345.5%float) 2500%float
              Stories.tightEnv).2 = [console_error QuotaExceededError]
  ∧ localStorage (setValue "budget" (inl 12345.5%float) 2500%float
                    Stories.tightEnv).2 = localStorage Stories.tightEnv
  ∧ (useLocalStorage_init "budget" DEFAULT_BUDGET
       (setValue "budget" (inl 12345.5%float) 2500%float
          Stories.tightEnv).2).1 = 2500%float.
Proof.
  assert (getItem "budget" (localStorage Stories.tightEnv) = Some "2500")
    as Hitem by (vm_compute; reflexivity).
  assert ("2500" ≠ "") as Hne by discriminate.
  assert (JSON_parse "2500" = Some 2500%float)
    as Hparse by (vm_compute; reflexivity).
  assert (JSON_stringify 12345.5%float = Some "12345.5")
    as Hstr by (vm_compute; reflexivity).
  assert (setItem "budget" "12345.5" (localStorage Stories.tightEnv) = None)
    as Hset by (vm_compute; reflexivity).
  repeat (split; [assumption|]).
  exact (failed_write_keeps_old "budget" 2500%float 12345.5%float
           DEFAULT_BUDGET 2500%float "2500" "12345.5" Stories.tightEnv
           Hitem Hne Hparse Hstr Hset).
Defined.

Lemma formatCsvCell_inj_witness :
  formatCsvCell None = formatCsvCell (Some "")
  ∧ default "" None = default "" (Some "").
Proof.
  assert (formatCsvCell None = formatCsvCell (Some "")) as Heq
    by (vm_compute; reflexivity).
  split; [exact Heq|]. exact (formatCsvCell_inj None (Some "") Heq).
Defined.

Lemma afternoon_in_sync : in_sync (acts Stories.afternoon Samples.world0).
Proof.
  change (let w := acts Stories.afternoon Samples.world0 in in_sync w).
  vm_compute. repeat split; try reflexivity; intros ?; discriminate.
Qed.

Lemma reload_in_sync_witness :
  in_sync (acts Stories.afternoon Samples.world0)
  ∧ App_init (env (acts Stories.afternoon Samples.world0)) =
    acts Stories.afternoon Samples.world0.
Proof.
  split; [exact afternoon_in_sync|].
  exact (reload_in_sync _ afternoon_in_sync).
Defined.

Lemma act_in_sync_witness :
  in_sync Samples.world0
  ∧ synced_key "transactions"
      (act Samples.world0 (do_handleSubmit "id-1" Stories.lunch))
  ∧ in_sync (act Samples.world0 (do_handleSubmit "id-1" Stories.lunch)).
Proof.
  assert (in_sync Samples.world0) as Hsync.
  { vm_compute. repeat split; reflexivity. }
  assert (synced_key "transactions"
            (act Samples.world0 (do_handleSubmit "id-1" Stories.lunch)))
    as Hown.
  { change (let w := act Samples.world0 (do_handleSubmit "id-1" Stories.lunch)
            in synced_key "transactions" w).
    vm_compute. split; [intros ?; discriminate|reflexivity]. }
  split; [exact Hsync|]. split; [exact Hown|].
  apply (act_in_sync (do_handleSubmit "id-1" Stories.lunch) _ Hsync).
  intros key Hkey. injection Hkey as <-. exact Hown.
Defined.

Lemma acts_ids_unique_witness :
  NoDup (drawn Stories.afternoon
           ++ (id <$> transactions (state Samples.world0)))%list
  ∧ NoDup (id <$> transactions
             (state (acts Stories.afternoon Samples.world0))).
Proof.
  assert (NoDup (drawn Stories.afternoon
                   ++ (id <$> transactions (state Samples.world0)))%list)
    as Hdrawn by (apply (bool_decide_unpack _); vm_compute; exact I).
  split; [exact Hdrawn|].
  exact (acts_ids_unique Stories.afternoon Samples.world0 Hdrawn).
Defined.

Lemma deleteTransaction_removes_one_witness :
  NoDup (id <$> transactions (state (run Samples.scenario Samples.world0)))
  ∧ withId Samples.groceries "id-2"
    ∈ transactions (state (run Samples.scenario Samples.world0))
  ∧ transactions (state (run Samples.scenario Samples.world0))
    ≡ₚ withId Samples.groceries "id-2"
       :: transactions
            (state (deleteTransaction "id-2"
                      (run Samples.scenario Samples.world0)))
  ∧ length (transactions (state (run Samples.scenario Samples.world0))) =
    S (length (transactions
                 (state (deleteTransaction "id-2"
                           (run Samples.scenario Samples.world0))))).
Proof.
  assert (NoDup (id <$> transactions
                   (state (run Samples.scenario Samples.world0))))
    as Hdup by (apply (bool_decide_unpack _); vm_compute; exact I).
  assert (withId Samples.groceries "id-2"
            ∈ transactions (state (run Samples.scenario Samples.world0)))
    as Hin by (vm_compute; constructor 2; constructor 1).
  split; [exact Hdup|]. split; [exact Hin|].
  exact (deleteTransaction_removes_one (withId Samples.groceries "id-2")
           (run Samples.scenario Samples.world0) Hdup Hin).
Defined.
